(** * DS3231 real-time-clock driver: register transcoding and bus behaviour

    A shallow embedding of [DS3231.cpp] / [DS3231.hpp] (namespace [lr]).
    Bytes and 16-bit values are integers in [Z] with the narrowing
    conversions of the C++ code written out ([u8], [u16], [int8]); [float]
    is IEEE 754 single precision, taken from the parametric specification
    of the Standard Library; the chip is a register file together with a log
    of the bus transactions that were issued, and the driver runs in a small
    state monad over it. *)

From Stdlib Require Import ZArith List Bool Lia QArith SpecFloat Ascii.
From stdpp Require Import base list.

Local Open Scope Z_scope.

(** ** Fixed-width integers *)

(** Conversion to [uint8_t]. *)
Definition u8 (z : Z) : Z := z mod 256.

(** Conversion to [uint16_t]. *)
Definition u16 (z : Z) : Z := z mod 65536.

(** Reading a raw byte as [int8_t] (two's complement). *)
Definition int8 (z : Z) : Z :=
  let b := u8 z in if b <? 128 then b else b - 256.

(** [oneBit8(n)] of [hal-common/BitTools.hpp]: the byte with only bit [n] set. *)
Definition oneBit8 (n : Z) : Z := u8 (Z.shiftl 1 n).

(** A small bounded universal quantifier, used to settle facts about bytes
    by evaluation. *)
Fixpoint forall_below (n : nat) (p : Z -> bool) : bool :=
  match n with
  | O => true
  | S k => p (Z.of_nat k) && forall_below k p
  end.

(** ** Single-precision floats *)

(** The C++ type [float]: binary32, that is 24 bits of precision and
    infinities at exponent 128, with round-to-nearest-even operations. *)
Module Float32.

Definition prec : Z := 24.
Definition emax : Z := 128.

(** [static_cast<float>] of an integer. *)
Definition of_Z (z : Z) : spec_float := binary_normalize prec emax z 0 false.

(** The literal [0.25f]. *)
Definition quarter : spec_float := binary_normalize prec emax 1 (-2) false.

Definition add : spec_float -> spec_float -> spec_float := SFadd prec emax.
Definition sub : spec_float -> spec_float -> spec_float := SFsub prec emax.
Definition mul : spec_float -> spec_float -> spec_float := SFmul prec emax.
Definition ltb : spec_float -> spec_float -> bool := SFltb.

(** The rational a finite float stands for; none for infinities and NaN. *)
Definition to_Q (x : spec_float) : option Q :=
  match x with
  | S754_zero _ => Some 0%Q
  | S754_finite s m e =>
      let sm := if s then Zneg m else Zpos m in
      Some (match e with
            | Zneg p => sm # (2 ^ p)%positive
            | _ => inject_Z (sm * 2 ^ e)
            end)
  | _ => None
  end.

End Float32.

(** ** BCD helpers *)

Module BCD.

(** Modelled from the spec: [BCD::convertBinToBcd] lives in [hal/BCD.hpp],
    which is not part of the driver's sources.  The glossary fixes the
    format: each decimal digit is stored in 4 bits, two digits per byte
    (tens digit in the high nibble). *)
Definition convertBinToBcd (value : Z) : Z :=
  u8 (Z.lor (Z.shiftl (u8 value / 10) 4) (u8 value mod 10)).

(** Modelled from the spec: [BCD::convertBcdToBin] of [hal/BCD.hpp], the
    inverse reading of the two nibbles as decimal digits. *)
Definition convertBcdToBin (value : Z) : Z :=
  u8 (Z.shiftr (u8 value) 4 * 10 + Z.land (u8 value) 15).

End BCD.

(** ** The date/time value *)

(** Modelled from the spec: [lr::DateTime] of [hal-common/DateTime.hpp] is an
    opaque value type with one accessor per field; the year is a
    [uint16_t], every other field a [uint8_t]. *)
Record DateTime := mkDateTime {
  getYear : Z;
  getMonth : Z;
  getDay : Z;
  getHour : Z;
  getMinute : Z;
  getSecond : Z;
  getDayOfWeek : Z
}.

(** Modelled from the spec: [DateTime::fromUncheckedValues] stores its
    arguments without validation; the parameter types narrow them. *)
Definition fromUncheckedValues (year month day hour minute second dayOfWeek : Z)
  : DateTime :=
  mkDateTime (u16 year) (u8 month) (u8 day) (u8 hour) (u8 minute) (u8 second)
             (u8 dayOfWeek).

(** The calendar ranges of the fields (day-of-week as the chip takes it). *)
Definition DateTime_in_range (dt : DateTime) : Prop :=
  1 <= getMonth dt <= 12 /\ 1 <= getDay dt <= 31 /\ 0 <= getHour dt <= 23 /\
  0 <= getMinute dt <= 59 /\ 0 <= getSecond dt <= 59 /\
  0 <= getDayOfWeek dt <= 7.

(** ** Status values *)

(** [CallStatus] of [hal-common/StatusTools.hpp]; [DS3231::Status]. *)
Inductive CallStatus := Success | Error.

Module WireMaster.

(** Modelled from the spec: the outcome of one bus transaction. *)
Inductive Status := Success | Error.

(** Result of a bit test ([Set] is reserved in Rocq). *)
Inductive BitResult := Set_ | Zero.

Inductive BitOperation := OpSet | Clear.

Definition BitResult_eqb (a b : BitResult) : bool :=
  match a, b with
  | Set_, Set_ | Zero, Zero => true
  | _, _ => false
  end.

End WireMaster.

Definition isSuccessful (s : WireMaster.Status) : bool :=
  match s with WireMaster.Success => true | WireMaster.Error => false end.

Definition hasError (s : WireMaster.Status) : bool := negb (isSuccessful s).

(** [DS3231::statusFromBus]. *)
Definition statusFromBus (busStatus : WireMaster.Status) : CallStatus :=
  if isSuccessful busStatus then Success else Error.

(** ** Register map and flags *)

Module Register.

Inductive t :=
  | Seconds | Minutes | Hours | DayOfWeek | Day | MonthCentury | Year
  | Alarm1Seconds | Alarm1Minutes | Alarm1Hours | Alarm1DayDate
  | Alarm2Minutes | Alarm2Hours | Alarm2DayDate
  | Control | Status | AgingOffset | TemperatureHigh | TemperatureLow.

(** The enumerator values. *)
Definition address (r : t) : nat :=
  match r with
  | Seconds => 0 | Minutes => 1 | Hours => 2 | DayOfWeek => 3 | Day => 4
  | MonthCentury => 5 | Year => 6
  | Alarm1Seconds => 7 | Alarm1Minutes => 8 | Alarm1Hours => 9
  | Alarm1DayDate => 10
  | Alarm2Minutes => 11 | Alarm2Hours => 12 | Alarm2DayDate => 13
  | Control => 14 | Status => 15 | AgingOffset => 16
  | TemperatureHigh => 17 | TemperatureLow => 18
  end%nat.

End Register.

(** [DS3231::getRegisterCount]. *)
Definition getRegisterCount : nat := 19.

Module ControlFlag.
Definition A1IE := oneBit8 0.
Definition A2IE := oneBit8 1.
Definition INTCN := oneBit8 2.
Definition RS1 := oneBit8 3.
Definition RS2 := oneBit8 4.
Definition CONV := oneBit8 5.
Definition BBSQW := oneBit8 6.
Definition EOSC := oneBit8 7.
End ControlFlag.

Module StatusFlag.
Definition A1F := oneBit8 0.
Definition A2F := oneBit8 1.
Definition BSY := oneBit8 2.
Definition EN32kHz := oneBit8 3.
Definition OSF := oneBit8 7.
End StatusFlag.

(** [DS3231::AlarmMode]; [OncePerMinute] is declared as an alias of
    [SecondsMatch]. *)
Inductive AlarmMode :=
  | OncePerSecond | SecondsMatch | MinutesSeconds | HoursMinutesSeconds
  | DateHoursMinutesSeconds | DayHoursMinutesSeconds.

Definition OncePerMinute : AlarmMode := SecondsMatch.

(** [static_cast<uint8_t>(alarmMode)]. *)
Definition AlarmMode_value (m : AlarmMode) : Z :=
  match m with
  | OncePerSecond => 0x0f (* 0b01111 *)
  | SecondsMatch => 0x0e (* 0b01110 *)
  | MinutesSeconds => 0x0c (* 0b01100 *)
  | HoursMinutesSeconds => 0x08 (* 0b01000 *)
  | DateHoursMinutesSeconds => 0x00 (* 0b00000 *)
  | DayHoursMinutesSeconds => 0x10 (* 0b10000 *)
  end.

(** [DS3231::IntPinMode]: eight enumerators, several of which are declared
    with the same underlying value. *)
Inductive IntPinMode :=
  | Disabled | Alarm1 | Alarm2 | Alarm12
  | SquareWave1Hz | SquareWave1024Hz | SquareWave4096Hz | SquareWave8192Hz.

(** [static_cast<uint8_t>(mode)]. *)
Definition IntPinMode_value (m : IntPinMode) : Z :=
  match m with
  | Disabled => 0x00 (* 0b00000 *)
  | Alarm1 => 0x05 (* 0b00101 *)
  | Alarm2 => 0x05 (* 0b00101 *)
  | Alarm12 => 0x05 (* 0b00101 *)
  | SquareWave1Hz => 0x00 (* 0b00000 *)
  | SquareWave1024Hz => 0x08 (* 0b01000 *)
  | SquareWave4096Hz => 0x10 (* 0b10000 *)
  | SquareWave8192Hz => 0x18 (* 0b11000 *)
  end.

(** ** The chip behind the bus *)

(** One call of the register-addressed bus client, as the driver issues it. *)
Inductive Transaction :=
  | ReadRegisterData (reg : Register.t) (count : nat)
  | WriteRegisterData (reg : Register.t) (data : list Z)
  | TestBits (reg : Register.t) (bitMask : Z)
  | ChangeBits (reg : Register.t) (bitMask : Z) (op : WireMaster.BitOperation)
  | WriteBits (reg : Register.t) (bitMask : Z) (value : Z).

(** The chip as the driver sees it: the register file (one byte per
    address), the outcomes the transport will report for the coming
    transactions (an exhausted script means success), and the transactions
    issued so far, oldest first. *)
Record Chip := mkChip {
  registers : list Z;
  outcomes : list WireMaster.Status;
  transactions : list Transaction
}.

(** Computations that talk to the chip. *)
Definition Bus (A : Type) : Type := Chip -> A * Chip.

Definition ret {A} (a : A) : Bus A := fun c => (a, c).

Definition bind {A B} (m : Bus A) (k : A -> Bus B) : Bus B :=
  fun c => let (a, c') := m c in k a c'.

Notation "'let*' x ':=' m 'in' k" := (bind m (fun x => k))
  (at level 10, x pattern, m at level 100, k at level 200).

(** Content of the register at address [i] (an absent address reads 0). *)
Definition peek (regs : list Z) (i : nat) : Z := default 0 (regs !! i).

(** Start a transaction: log it and take the transport's next outcome. *)
Definition transact (t : Transaction) : Bus WireMaster.Status :=
  fun c =>
    match outcomes c with
    | [] => (WireMaster.Success,
             mkChip (registers c) [] (transactions c ++ [t]))
    | s :: rest => (s, mkChip (registers c) rest (transactions c ++ [t]))
    end.

Definition modify (f : list Z -> list Z) : Bus unit :=
  fun c => (tt, mkChip (f (registers c)) (outcomes c) (transactions c)).

Definition inspect {A} (f : list Z -> A) : Bus A :=
  fun c => (f (registers c), c).

(** Modelled from the spec: [WireMasterRegisterChip::readRegisterData], the
    batched read of [count] contiguous registers from [reg] on.  A failed
    transfer delivers no data. *)
Definition readRegisterData (reg : Register.t) (count : nat)
  : Bus (WireMaster.Status * list Z) :=
  let* status := transact (ReadRegisterData reg count) in
  if isSuccessful status then
    let* data := inspect (fun regs =>
                   map (peek regs) (seq (Register.address reg) count)) in
    ret (status, data)
  else ret (status, []).

(** Modelled from the spec: [WireMasterRegisterChip::writeRegisterData], the
    batched write of a buffer to contiguous registers from [reg] on.  A
    failed transfer leaves the registers as they were. *)
Definition writeRegisterData (reg : Register.t) (data : list Z)
  : Bus WireMaster.Status :=
  let* status := transact (WriteRegisterData reg data) in
  if isSuccessful status then
    let* _ := modify (list_inserts (Register.address reg) (map u8 data)) in
    ret status
  else ret status.

(** Modelled from the spec: [WireMasterRegisterChip::testBits], the test of
    the masked bits of one register.  After a failure the result slot
    carries no information; the driver never looks at it then. *)
Definition testBits (reg : Register.t) (bitMask : Z)
  : Bus (WireMaster.Status * WireMaster.BitResult) :=
  let* status := transact (TestBits reg bitMask) in
  if isSuccessful status then
    let* v := inspect (fun regs => peek regs (Register.address reg)) in
    ret (status, if Z.land v bitMask =? 0 then WireMaster.Zero
                 else WireMaster.Set_)
  else ret (status, WireMaster.Zero).

(** Modelled from the spec: [WireMasterRegisterChip::changeBits], setting or
    clearing the masked bits of one register. *)
Definition changeBits (reg : Register.t) (bitMask : Z)
    (op : WireMaster.BitOperation) : Bus WireMaster.Status :=
  let* status := transact (ChangeBits reg bitMask op) in
  if isSuccessful status then
    let a := Register.address reg in
    let* _ := modify (fun regs =>
      <[a := match op with
             | WireMaster.OpSet => Z.lor (peek regs a) (u8 bitMask)
             | WireMaster.Clear => Z.land (peek regs a) (255 - u8 bitMask)
             end]> regs) in
    ret status
  else ret status.

(** Modelled from the spec: [WireMasterRegisterChip::writeBits], the masked
    write of a field of one register. *)
Definition writeBits (reg : Register.t) (bitMask value : Z)
  : Bus WireMaster.Status :=
  let* status := transact (WriteBits reg bitMask value) in
  if isSuccessful status then
    let a := Register.address reg in
    let* _ := modify (fun regs =>
      <[a := Z.lor (Z.land (peek regs a) (255 - u8 bitMask))
                   (Z.land (u8 value) (u8 bitMask))]> regs) in
    ret status
  else ret status.

(** ** Register blocks *)

(** [struct DS3231::DateTimeRegister]: seven consecutive bytes. *)
Module DateTimeRegister.
Record t := mk {
  seconds : Z; minutes : Z; hours : Z; dayOfWeek : Z;
  day : Z; month : Z; year : Z
}.

(** View of the struct as raw bytes ([reinterpret_cast<uint8_t*>]). *)
Definition bytes (d : t) : list Z :=
  [seconds d; minutes d; hours d; dayOfWeek d; day d; month d; year d].

(** The struct overlaid on a buffer of raw bytes. *)
Definition of_bytes (l : list Z) : t :=
  mk (nth 0 l 0) (nth 1 l 0) (nth 2 l 0) (nth 3 l 0)
     (nth 4 l 0) (nth 5 l 0) (nth 6 l 0).

Definition sizeof : nat := 7.
End DateTimeRegister.

(** [struct DS3231::AlarmRegister]: four consecutive bytes. *)
Module AlarmRegister.
Record t := mk {
  seconds : Z; minutes : Z; hours : Z;
  day : Z (* or day of week. *)
}.

Definition bytes (d : t) : list Z := [seconds d; minutes d; hours d; day d].

Definition sizeof : nat := 4.
End AlarmRegister.

(** [struct DS3231::TemperatureRegister]: a signed and an unsigned byte. *)
Module TemperatureRegister.
Record t := mk { high : Z; low : Z }.

Definition of_bytes (l : list Z) : t := mk (int8 (nth 0 l 0)) (u8 (nth 1 l 0)).

Definition sizeof : nat := 2.
End TemperatureRegister.

(** ** The driver *)

Section Driver.

(** [_yearBase], fixed at construction. *)
Variable yearBase : Z.

(** The conversion of the register block in [getDateTime] (source lines
    74 to 81). *)
Definition decodeDateTime (data : DateTimeRegister.t) : DateTime :=
  fromUncheckedValues
    (u16 (BCD.convertBcdToBin (DateTimeRegister.year data)) +
       (if negb (Z.land (DateTimeRegister.month data) (Z.shiftl 1 7) =? 0)
        then yearBase + 100 else yearBase))
    (BCD.convertBcdToBin (Z.land (DateTimeRegister.month data) 0x1f))
    (BCD.convertBcdToBin (Z.land (DateTimeRegister.day data) 0x3f))
    (BCD.convertBcdToBin (Z.land (DateTimeRegister.hours data) 0x3f))
    (BCD.convertBcdToBin (Z.land (DateTimeRegister.minutes data) 0x7f))
    (BCD.convertBcdToBin (Z.land (DateTimeRegister.seconds data) 0x7f))
    (Z.land (DateTimeRegister.dayOfWeek data) 0x7).

(** [DS3231::getDateTime]; the argument is the caller's variable, which is
    overwritten only after a successful read. *)
Definition getDateTime (dateTime : DateTime) : Bus (CallStatus * DateTime) :=
  let* (status, buffer) :=
    readRegisterData Register.Seconds DateTimeRegister.sizeof in
  if isSuccessful status then
    let data := DateTimeRegister.of_bytes buffer in
    ret (Success, decodeDateTime data)
  else
    ret (Error, dateTime).

(** The preparation of the register block in [setDateTime] (source lines
    99 to 106). *)
Definition encodeDateTime (dateTime : DateTime) : DateTimeRegister.t :=
  DateTimeRegister.mk
    (BCD.convertBinToBcd (getSecond dateTime))
    (BCD.convertBinToBcd (getMinute dateTime))
    (BCD.convertBinToBcd (getHour dateTime))
    (getDayOfWeek dateTime)
    (BCD.convertBinToBcd (getDay dateTime))
    (u8 (Z.lor (BCD.convertBinToBcd (getMonth dateTime))
               (if yearBase + 100 <=? getYear dateTime
                then Z.shiftl 1 7 else 0)))
    (BCD.convertBinToBcd (getYear dateTime mod 100)).

(** [DS3231::setDateTime]. *)
Definition setDateTime (dateTime : DateTime) : Bus CallStatus :=
  let newYear := getYear dateTime in
  if (newYear <? yearBase) || (yearBase + 200 <=? newYear) then
    ret Error (* The date is outside of the valid range. *)
  else
    let data := encodeDateTime dateTime in
    let* status :=
      writeRegisterData Register.Seconds (DateTimeRegister.bytes data) in
    ret (statusFromBus status).

(** [DS3231::isRunning]; the argument is the caller's variable. *)
Definition isRunning (isRunning : bool) : Bus (CallStatus * bool) :=
  let* (status, bitResult) := testBits Register.Status StatusFlag.OSF in
  if hasError status then ret (statusFromBus status, isRunning) else
  if WireMaster.BitResult_eqb bitResult WireMaster.Set_ then
    ret (statusFromBus status, false)
  else
  let* (status, bitResult) := testBits Register.Control ControlFlag.EOSC in
  if hasError status then ret (statusFromBus status, isRunning) else
  ret (statusFromBus status,
       WireMaster.BitResult_eqb bitResult WireMaster.Zero).

(** [DS3231::enableOscillator]. *)
Definition enableOscillator : Bus CallStatus :=
  (* Start the oscillator in the control register. *)
  let* status :=
    changeBits Register.Control ControlFlag.EOSC WireMaster.Clear in
  if hasError status then ret (statusFromBus status) else
  (* Reset the flag. *)
  let* status := changeBits Register.Status StatusFlag.OSF WireMaster.Clear in
  ret (statusFromBus status).

(** [DS3231::fillAlarmRegister]. *)
Definition fillAlarmRegister (alarmMode : AlarmMode) (dateTime : DateTime)
  : AlarmRegister.t :=
  let seconds :=
    u8 (Z.lor (BCD.convertBinToBcd (getSecond dateTime))
              (if negb (Z.land (AlarmMode_value alarmMode) 0x01 =? 0)
               then 0x80 else 0x00)) in
  let minutes :=
    u8 (Z.lor (BCD.convertBinToBcd (getMinute dateTime))
              (if negb (Z.land (AlarmMode_value alarmMode) 0x02 =? 0)
               then 0x80 else 0x00)) in
  let hours :=
    u8 (Z.lor (BCD.convertBinToBcd (getHour dateTime))
              (if negb (Z.land (AlarmMode_value alarmMode) 0x04 =? 0)
               then 0x80 else 0x00)) in
  let day :=
    if AlarmMode_value alarmMode =? AlarmMode_value DayHoursMinutesSeconds
    then u8 (Z.lor (BCD.convertBinToBcd (getDayOfWeek dateTime + 1)) 0x40)
    else BCD.convertBinToBcd (getDay dateTime) in
  let day :=
    u8 (Z.lor day (if negb (Z.land (AlarmMode_value alarmMode) 0x08 =? 0)
                   then 0x80 else 0x00)) in
  AlarmRegister.mk seconds minutes hours day.

(** [DS3231::setAlarm1]. *)
Definition setAlarm1 (alarmMode : AlarmMode) (dateTime : DateTime)
  : Bus CallStatus :=
  let data := fillAlarmRegister alarmMode dateTime in
  let* status :=
    writeRegisterData Register.Alarm1Seconds
      (firstn AlarmRegister.sizeof (AlarmRegister.bytes data)) in
  ret (statusFromBus status).

(** [DS3231::setAlarm2]: the buffer starts one byte into the struct and is
    one byte shorter. *)
Definition setAlarm2 (alarmMode : AlarmMode) (dateTime : DateTime)
  : Bus CallStatus :=
  let data := fillAlarmRegister alarmMode dateTime in
  let* status :=
    writeRegisterData Register.Alarm2Minutes
      (firstn (AlarmRegister.sizeof - 1)
              (skipn 1 (AlarmRegister.bytes data))) in
  ret (statusFromBus status).

(** [DS3231::isAlarm1Set]; the argument is the caller's variable. *)
Definition isAlarm1Set (isSet : bool) : Bus (CallStatus * bool) :=
  let* (status, bitResult) := testBits Register.Status StatusFlag.A1F in
  if hasError status then ret (statusFromBus status, isSet) else
  let isSet := WireMaster.BitResult_eqb bitResult WireMaster.Set_ in
  (* If the bit is set, clear the bit. *)
  let* _ :=
    if isSet
    then changeBits Register.Status StatusFlag.A1F WireMaster.Clear
    else ret status in
  ret (statusFromBus status, isSet).

(** [DS3231::isAlarm2Set]; the argument is the caller's variable. *)
Definition isAlarm2Set (isSet : bool) : Bus (CallStatus * bool) :=
  let* (status, bitResult) := testBits Register.Status StatusFlag.A2F in
  if hasError status then ret (statusFromBus status, isSet) else
  let isSet := WireMaster.BitResult_eqb bitResult WireMaster.Set_ in
  (* If the bit is set, clear the bit. *)
  let* _ :=
    if isSet
    then changeBits Register.Status StatusFlag.A2F WireMaster.Clear
    else ret status in
  ret (statusFromBus status, isSet).

(** [DS3231::setIntPinMode]. *)
Definition setIntPinMode (mode : IntPinMode) : Bus CallStatus :=
  let* status :=
    writeBits Register.Control 0x1f (* 0b00011111 *) (IntPinMode_value mode) in
  ret (statusFromBus status).

(** The arithmetic of [getTemperature] on the register pair (source lines
    224 to 230), in single precision. *)
Definition decodeTemperature (data : TemperatureRegister.t) : spec_float :=
  let result := Float32.of_Z (TemperatureRegister.high data) in
  let fraction :=
    Float32.mul (Float32.of_Z (Z.shiftr (TemperatureRegister.low data) 6))
                Float32.quarter in
  if Float32.ltb result (Float32.of_Z 0)
  then Float32.sub result fraction
  else Float32.add result fraction.

(** [DS3231::getTemperature]; the argument is the caller's variable. *)
Definition getTemperature (temperature : spec_float)
  : Bus (CallStatus * spec_float) :=
  let* (status, buffer) :=
    readRegisterData Register.TemperatureHigh TemperatureRegister.sizeof in
  match status with
  | WireMaster.Success =>
      let data := TemperatureRegister.of_bytes buffer in
      ret (Success, decodeTemperature data)
  | _ => ret (Error, temperature)
  end.

End Driver.

(** The temperature the specification assigns to a register pair: the
    signed integer part, with the top two bits of the low byte counted in
    quarters and added for a non-negative integer part, subtracted for a
    negative one. *)
Definition temperature_value (high low : Z) : Q :=
  if high <? 0
  then (inject_Z high - inject_Z (Z.shiftr low 6) * (1 # 4))%Q
  else (inject_Z high + inject_Z (Z.shiftr low 6) * (1 # 4))%Q.

(** Whether the float computed for a register pair is finite and stands for
    exactly the specified temperature. *)
Definition temperature_exact (high low : Z) : bool :=
  match Float32.to_Q (decodeTemperature (TemperatureRegister.mk high low)) with
  | Some q => Qeq_bool q (temperature_value high low)
  | None => false
  end.

(** ** Sample inputs *)

(** A chip with all 19 registers zero, a transport that never fails and an
    empty transaction log. *)
Definition blank_chip : Chip := mkChip (repeat 0 getRegisterCount) [] [].

(** The same chip with given control and status registers and a scripted
    transport. *)
Definition chip_with (control status : Z) (script : list WireMaster.Status)
  : Chip :=
  mkChip (<[Register.address Register.Control := control]>
            (<[Register.address Register.Status := status]>
               (repeat 0 getRegisterCount)))
         script [].

(** A chip whose temperature registers hold the given raw bytes. *)
Definition chip_with_temperature (high low : Z) : Chip :=
  mkChip (<[Register.address Register.TemperatureHigh := high]>
            (<[Register.address Register.TemperatureLow := low]>
               (repeat 0 getRegisterCount)))
         [] [].

(** The chip state once [t] has been issued and has consumed one outcome. *)
Definition after (t : Transaction) (c : Chip) : Chip :=
  mkChip (registers c) (tl (outcomes c)) (transactions c ++ [t]).

(** New Year's Eve 1999, a Friday. *)
Definition eve_1999 : DateTime := mkDateTime 1999 12 31 23 59 59 5.

(** A date 150 years after 1970. *)
Definition mid_2120 : DateTime := mkDateTime 2120 6 15 12 30 45 6.

(** A date in the default window of the driver. *)
Definition leap_2024 : DateTime := mkDateTime 2024 2 29 13 37 42 3.

(** ** The register dump *)

Section Dump.

(** [lr::String] of [hal-common/String.hpp] and the four members the dump
    uses are not part of the driver's sources; the dump is modelled over any
    string type that offers them. *)
Variable String : Type.
Variable String_empty : String.
Variable append : String -> ascii -> String.
Variable appendHex : String -> Z -> String.
Variable appendBin : String -> Z -> String.

(** The body of the loop in [getAllRegisterValuesAsString] (source lines
    247 to 253) for index [i]. *)
Definition dumpRegister (rtcRegister : list Z) (result : String) (i : nat)
  : String :=
  let result := appendHex result (Z.of_nat i) in
  let result := append result ":"%char in
  let value := nth i rtcRegister 0 in
  let result := appendHex result value in
  let result := append result ":"%char in
  let result := appendBin result value in
  append result "010"%char.

(** [DS3231::getAllRegisterValuesAsString]; the argument is the caller's
    variable. *)
Definition getAllRegisterValuesAsString (str : String)
  : Bus (CallStatus * String) :=
  let result := String_empty in
  let registerCount := getRegisterCount in
  let* (status, rtcRegister) :=
    readRegisterData Register.Seconds registerCount in
  match status with
  | WireMaster.Success =>
      let result :=
        fold_left (dumpRegister rtcRegister) (seq 0 registerCount) result in
      ret (Success, result)
  | _ => ret (Error, str)
  end.

End Dump.

(** ** Register contents the chip itself keeps *)

(** A byte holding two decimal digits whose value lies in [lo .. hi]. *)
Definition is_bcd_between (lo hi v : Z) : bool :=
  (0 <=? v) && (v <? 256) && (Z.land v 0xf <=? 9) && (Z.shiftr v 4 <=? 9)
  && (lo <=? BCD.convertBcdToBin v) && (BCD.convertBcdToBin v <=? hi).

(** Time registers as the chip maintains them in 24-hour mode: valid BCD
    digits in calendar range, all reserved bits zero, the century flag free. *)
Definition canonical (data : DateTimeRegister.t) : bool :=
  is_bcd_between 0 59 (DateTimeRegister.seconds data)
  && is_bcd_between 0 59 (DateTimeRegister.minutes data)
  && is_bcd_between 0 23 (DateTimeRegister.hours data)
  && (0 <=? DateTimeRegister.dayOfWeek data)
  && (DateTimeRegister.dayOfWeek data <=? 7)
  && is_bcd_between 1 31 (DateTimeRegister.day data)
  && (0 <=? DateTimeRegister.month data)
  && (DateTimeRegister.month data <? 256)
  && is_bcd_between 1 12 (Z.land (DateTimeRegister.month data) 0x7f)
  && is_bcd_between 0 99 (DateTimeRegister.year data).

(** The outcome the transport reports for the next transaction. *)
Definition next_outcome (c : Chip) : WireMaster.Status :=
  hd WireMaster.Success (outcomes c).

(** The transport reports success for the next [n] transactions. *)
Definition transport_ok (n : nat) (c : Chip) : bool :=
  forallb isSuccessful (firstn n (outcomes c)).

(** * Properties *)

(** ** Bounded checks *)

Lemma forall_below_spec (n : nat) (p : Z -> bool) :
  forall_below n p = true ->
  forall z, 0 <= z < Z.of_nat n -> p z = true.
Proof.
  induction n as [|k IH]; intros Hall z Hz.
  - lia.
  - cbn [forall_below] in Hall. apply andb_true_iff in Hall as [Hk Hrest].
    destruct (Z.eq_dec z (Z.of_nat k)) as [->|Hne]; [exact Hk|].
    apply IH; [exact Hrest | lia].
Qed.

(** ** BCD *)

Lemma bcd_roundtrip :
  forall n, 0 <= n < 100 -> BCD.convertBcdToBin (BCD.convertBinToBcd n) = n.
Proof.
  intros n Hn. apply Z.eqb_eq.
  apply (forall_below_spec 100
           (fun x => BCD.convertBcdToBin (BCD.convertBinToBcd x) =? x));
    [vm_compute; reflexivity | lia].
Qed.

(** A value below 80 encodes to a byte with bit 7 clear. *)
Lemma bcd_bit7_clear :
  forall n, 0 <= n < 80 -> Z.testbit (BCD.convertBinToBcd n) 7 = false.
Proof.
  intros n Hn.
  apply (forall_below_spec 80
           (fun x => negb (Z.testbit (BCD.convertBinToBcd x) 7)))
    in Hn; [|vm_compute; reflexivity].
  now apply negb_true_iff in Hn.
Qed.

Lemma bcd_mask7f :
  forall n, 0 <= n < 80 ->
    BCD.convertBcdToBin (Z.land (BCD.convertBinToBcd n) 0x7f) = n.
Proof.
  intros n Hn. apply Z.eqb_eq.
  apply (forall_below_spec 80
    (fun x => BCD.convertBcdToBin (Z.land (BCD.convertBinToBcd x) 0x7f) =? x));
    [vm_compute; reflexivity | lia].
Qed.

Lemma bcd_mask3f :
  forall n, 0 <= n < 40 ->
    BCD.convertBcdToBin (Z.land (BCD.convertBinToBcd n) 0x3f) = n.
Proof.
  intros n Hn. apply Z.eqb_eq.
  apply (forall_below_spec 40
    (fun x => BCD.convertBcdToBin (Z.land (BCD.convertBinToBcd x) 0x3f) =? x));
    [vm_compute; reflexivity | lia].
Qed.

(** The month byte: the century flag does not disturb the month digits. *)
Lemma bcd_month_mask1f (flag : Z) :
  flag = 0 \/ flag = Z.shiftl 1 7 ->
  forall n, 0 <= n < 20 ->
    BCD.convertBcdToBin
      (Z.land (u8 (Z.lor (BCD.convertBinToBcd n) flag)) 0x1f) = n.
Proof.
  intros Hflag n Hn. apply Z.eqb_eq.
  destruct Hflag as [-> | ->].
  - apply (forall_below_spec 20
      (fun x => BCD.convertBcdToBin
         (Z.land (u8 (Z.lor (BCD.convertBinToBcd x) 0)) 0x1f) =? x));
      [vm_compute; reflexivity | lia].
  - apply (forall_below_spec 20
      (fun x => BCD.convertBcdToBin
         (Z.land (u8 (Z.lor (BCD.convertBinToBcd x) (Z.shiftl 1 7))) 0x1f)
         =? x));
      [vm_compute; reflexivity | lia].
Qed.

(** The month byte carries the century flag in bit 7 and nowhere else. *)
Lemma month_century_bit (flag : bool) :
  forall n, 0 <= n < 80 ->
    (Z.land (u8 (Z.lor (BCD.convertBinToBcd n)
                       (if flag then Z.shiftl 1 7 else 0)))
            (Z.shiftl 1 7) =? 0) = negb flag.
Proof.
  intros n Hn. destruct flag; cbn [negb].
  - apply negb_true_iff.
    apply (forall_below_spec 80
      (fun x => negb (Z.land (u8 (Z.lor (BCD.convertBinToBcd x)
                                        (Z.shiftl 1 7)))
                             (Z.shiftl 1 7) =? 0)));
      [vm_compute; reflexivity | lia].
  - apply (forall_below_spec 80
      (fun x => Z.land (u8 (Z.lor (BCD.convertBinToBcd x) 0))
                       (Z.shiftl 1 7) =? 0));
      [vm_compute; reflexivity | lia].
Qed.

Lemma u8_small z : 0 <= z < 256 -> u8 z = z.
Proof. intros H. unfold u8. now apply Z.mod_small. Qed.

Lemma u16_small z : 0 <= z < 65536 -> u16 z = z.
Proof. intros H. unfold u16. now apply Z.mod_small. Qed.

Lemma convertBcdToBin_range v : 0 <= BCD.convertBcdToBin v < 256.
Proof. unfold BCD.convertBcdToBin, u8. apply Z.mod_pos_bound. lia. Qed.

Lemma convertBinToBcd_range v : 0 <= BCD.convertBinToBcd v < 256.
Proof. unfold BCD.convertBinToBcd, u8. apply Z.mod_pos_bound. lia. Qed.

(** ** The date/time register transform *)

Lemma dayOfWeek_mask d : 0 <= d <= 7 -> u8 (Z.land d 0x7) = d.
Proof.
  intros Hd. apply Z.eqb_eq.
  apply (forall_below_spec 8 (fun x => u8 (Z.land x 0x7) =? x));
    [vm_compute; reflexivity | lia].
Qed.

(** The two-digit year and the century flag rebuild the year when the year
    base starts a century. *)
Lemma year_rebuild yb y :
  yb mod 100 = 0 -> yb <= y < yb + 200 ->
  y mod 100 + (if yb + 100 <=? y then yb + 100 else yb) = y.
Proof.
  intros Hyb Hy.
  destruct (Z.leb_spec (yb + 100) y); Z.div_mod_to_equations; lia.
Qed.

(** On a year base that starts a century, decoding the register block that
    [setDateTime] prepares gives back the date/time. *)
Lemma decode_encode_century_base (yb : Z) (dt : DateTime) :
  0 <= yb -> yb mod 100 = 0 ->
  yb <= getYear dt < yb + 200 -> getYear dt < 65536 ->
  DateTime_in_range dt ->
  decodeDateTime yb (encodeDateTime yb dt) = dt.
Proof.
  intros Hyb0 Hyb Hy Hy16 (Hmo & Hd & Hh & Hmi & Hs & Hw).
  destruct dt as [y mo d h mi s w].
  cbn [getYear getMonth getDay getHour getMinute getSecond getDayOfWeek] in *.
  unfold decodeDateTime, encodeDateTime, fromUncheckedValues.
  cbn [DateTimeRegister.year DateTimeRegister.month DateTimeRegister.day
       DateTimeRegister.hours DateTimeRegister.minutes
       DateTimeRegister.seconds DateTimeRegister.dayOfWeek
       getYear getMonth getDay getHour getMinute getSecond getDayOfWeek].
  rewrite (month_century_bit (yb + 100 <=? y)) by lia.
  rewrite negb_involutive.
  rewrite bcd_roundtrip by (apply Z.mod_pos_bound; lia).
  rewrite (u16_small (y mod 100))
    by (pose proof (Z.mod_pos_bound y 100); lia).
  rewrite year_rebuild by assumption.
  rewrite bcd_month_mask1f; [| destruct (yb + 100 <=? y); auto | lia].
  rewrite !bcd_mask3f, !bcd_mask7f by lia.
  rewrite dayOfWeek_mask by lia.
  rewrite u16_small by lia.
  rewrite !u8_small by lia.
  reflexivity.
Qed.

(** ** Bus transactions *)

Lemma transact_spec (t : Transaction) (c : Chip) :
  exists st,
    transact t c =
      (st, mkChip (registers c) (tl (outcomes c)) (transactions c ++ [t])).
Proof.
  unfold transact. destruct (outcomes c) as [|s rest]; eauto.
Qed.

Lemma testBits_effect reg mask c r c1 :
  testBits reg mask c = (r, c1) ->
  registers c1 = registers c /\
  transactions c1 = transactions c ++ [TestBits reg mask].
Proof.
  unfold testBits, bind, inspect, ret.
  destruct (transact_spec (TestBits reg mask) c) as [st ->].
  destruct (isSuccessful st); intros [= <- <-]; auto.
Qed.

Lemma readRegisterData_spec reg count c :
  exists st,
    readRegisterData reg count c =
      ((st, if isSuccessful st
            then map (peek (registers c)) (seq (Register.address reg) count)
            else []),
       mkChip (registers c) (tl (outcomes c))
              (transactions c ++ [ReadRegisterData reg count])).
Proof.
  unfold readRegisterData, bind, inspect, ret.
  destruct (transact_spec (ReadRegisterData reg count) c) as [st ->].
  exists st. now destruct (isSuccessful st).
Qed.

Lemma readRegisterData_effect reg count c r c1 :
  readRegisterData reg count c = (r, c1) ->
  registers c1 = registers c /\
  transactions c1 = transactions c ++ [ReadRegisterData reg count].
Proof.
  unfold readRegisterData, bind, inspect, ret.
  destruct (transact_spec (ReadRegisterData reg count) c) as [st ->].
  destruct (isSuccessful st); intros [= <- <-]; auto.
Qed.

Lemma changeBits_effect reg mask op c st c1 :
  changeBits reg mask op c = (st, c1) ->
  transactions c1 = transactions c ++ [ChangeBits reg mask op].
Proof.
  unfold changeBits, bind, modify, ret.
  destruct (transact_spec (ChangeBits reg mask op) c) as [s ->].
  destruct (isSuccessful s); intros [= <- <-]; auto.
Qed.

Lemma writeBits_effect reg mask value c st c1 :
  writeBits reg mask value c = (st, c1) ->
  transactions c1 = transactions c ++ [WriteBits reg mask value].
Proof.
  unfold writeBits, bind, modify, ret.
  destruct (transact_spec (WriteBits reg mask value) c) as [s ->].
  destruct (isSuccessful s); intros [= <- <-]; auto.
Qed.

(** A batched write logs one transaction and changes the registers only
    inside the written range. *)
Lemma writeRegisterData_effect reg data c st c1 :
  writeRegisterData reg data c = (st, c1) ->
  transactions c1 = transactions c ++ [WriteRegisterData reg data] /\
  (forall j : nat,
     (j < Register.address reg \/
      Register.address reg + length data <= j)%nat ->
     registers c1 !! j = registers c !! j) /\
  (st = WireMaster.Success ->
   registers c1 =
     list_inserts (Register.address reg) (map u8 data) (registers c)).
Proof.
  unfold writeRegisterData, bind, modify, ret.
  destruct (transact_spec (WriteRegisterData reg data) c) as [s ->].
  destruct s; cbn [isSuccessful]; intros [= <- <-]; cbn [transactions registers].
  - split; [reflexivity|]. split; [|reflexivity].
    intros j [Hj|Hj].
    + now apply list_lookup_inserts_lt.
    + apply list_lookup_inserts_ge. now rewrite length_map.
  - split; [reflexivity|]. split; [reflexivity|discriminate].
Qed.

(** Reading back a range that was just written. *)
Lemma peek_inserts (a : nat) (data regs : list Z) :
  (a + length data <= length regs)%nat ->
  map (peek (list_inserts a data regs)) (seq a (length data)) = data.
Proof.
  intros Hlen. apply list_eq. intros i.
  rewrite list_lookup_fmap.
  destruct (data !! i) as [x|] eqn:Hx.
  - pose proof (lookup_lt_Some _ _ _ Hx) as Hi.
    rewrite lookup_seq_lt by exact Hi. cbn [fmap option_fmap option_map].
    unfold peek. rewrite list_lookup_inserts by lia.
    replace (a + i - a)%nat with i by lia. now rewrite Hx.
  - pose proof (lookup_ge_None_1 _ _ Hx) as Hi.
    now rewrite lookup_seq_ge by exact Hi.
Qed.

(** The prepared block survives the trip through the register file. *)
Lemma encodeDateTime_bytes (yb : Z) (dt : DateTime) :
  0 <= getDayOfWeek dt < 256 ->
  DateTimeRegister.of_bytes
    (map u8 (DateTimeRegister.bytes (encodeDateTime yb dt)))
  = encodeDateTime yb dt.
Proof.
  intros Hw. unfold encodeDateTime, DateTimeRegister.bytes,
    DateTimeRegister.of_bytes.
  cbn [DateTimeRegister.year DateTimeRegister.month DateTimeRegister.day
       DateTimeRegister.hours DateTimeRegister.minutes
       DateTimeRegister.seconds DateTimeRegister.dayOfWeek map nth].
  rewrite !(u8_small (BCD.convertBinToBcd _)) by apply convertBinToBcd_range.
  rewrite (u8_small (getDayOfWeek dt)) by exact Hw.
  f_equal. unfold u8 at 1. apply Z.mod_small. apply Z.mod_pos_bound. lia.
Qed.

Lemma setDateTime_in_window (yb : Z) (dt : DateTime) (c : Chip) :
  yb <= getYear dt < yb + 200 ->
  setDateTime yb dt c =
    let (status, c1) :=
      writeRegisterData Register.Seconds
        (DateTimeRegister.bytes (encodeDateTime yb dt)) c in
    (statusFromBus status, c1).
Proof.
  intros Hy. unfold setDateTime.
  destruct (Z.ltb_spec (getYear dt) yb); [lia|].
  destruct (Z.leb_spec (yb + 200) (getYear dt)); [lia|].
  reflexivity.
Qed.

(** X1: on a year base that is a non-negative multiple of 100, a date/time
    with its year in the 200-year window and its other fields in range that
    [setDateTime] wrote successfully is what a successful [getDateTime]
    returns: year, month, day, hour, minute, second and day-of-week. *)
Lemma setDateTime_getDateTime_century_base
    (yb : Z) (dt dt0 dt' : DateTime) (c c1 c2 : Chip) :
  0 <= yb -> yb mod 100 = 0 ->
  yb <= getYear dt < yb + 200 -> getYear dt < 65536 ->
  DateTime_in_range dt ->
  (7 <= length (registers c))%nat ->
  setDateTime yb dt c = (Success, c1) ->
  getDateTime yb dt0 c1 = ((Success, dt'), c2) ->
  dt' = dt.
Proof.
  intros Hyb0 Hyb Hy Hy16 Hrange Hlen Hset Hget.
  rewrite setDateTime_in_window in Hset by exact Hy.
  destruct (writeRegisterData Register.Seconds
              (DateTimeRegister.bytes (encodeDateTime yb dt)) c)
    as [st cw] eqn:Hw.
  injection Hset as Hst ->.
  destruct st; [|discriminate Hst].
  apply writeRegisterData_effect in Hw as (_ & _ & Hregs).
  specialize (Hregs eq_refl).
  assert (Hbuf :
    map (peek (registers c1))
        (seq (Register.address Register.Seconds) DateTimeRegister.sizeof)
    = map u8 (DateTimeRegister.bytes (encodeDateTime yb dt))).
  { rewrite Hregs.
    apply (peek_inserts (Register.address Register.Seconds)
             (map u8 (DateTimeRegister.bytes (encodeDateTime yb dt)))).
    cbn. exact Hlen. }
  destruct (readRegisterData_spec Register.Seconds DateTimeRegister.sizeof c1)
    as [s Hs].
  rewrite Hbuf in Hs.
  unfold getDateTime, bind in Hget. rewrite Hs in Hget.
  destruct s; cbn [isSuccessful ret] in Hget; [|discriminate Hget].
  apply (f_equal (fun r => snd (fst r))) in Hget. cbn [fst snd] in Hget.
  subst dt'.
  rewrite encodeDateTime_bytes
    by (destruct Hrange as (_ & _ & _ & _ & _ & ?); lia).
  now apply decode_encode_century_base.
Qed.

(** ** Year window of [setDateTime] *)

(** C2: [setDateTime] answers [Error] and leaves the chip alone, with no
    transaction issued, whenever the year is below the year base or at
    least the year base plus 200, in particular one year below the base and
    exactly 200 years above it; for every year inside the window, in
    particular the base itself and the base plus 199, the check passes and
    the call issues exactly the batched write of the seven prepared bytes
    from the seconds register on, returning that write's status. *)
Theorem setDateTime_year_window (yearBase : Z) (dt : DateTime) (c : Chip) :
  (getYear dt < yearBase \/ yearBase + 200 <= getYear dt ->
     setDateTime yearBase dt c = (Error, c)) /\
  (getYear dt = yearBase - 1 \/ getYear dt = yearBase + 200 ->
     setDateTime yearBase dt c = (Error, c)) /\
  (yearBase <= getYear dt < yearBase + 200 ->
     exists status c1,
       writeRegisterData Register.Seconds
         (DateTimeRegister.bytes (encodeDateTime yearBase dt)) c
         = (status, c1) /\
       setDateTime yearBase dt c = (statusFromBus status, c1) /\
       transactions c1 =
         transactions c ++
         [WriteRegisterData Register.Seconds
            (DateTimeRegister.bytes (encodeDateTime yearBase dt))] /\
       length (DateTimeRegister.bytes (encodeDateTime yearBase dt)) = 7%nat) /\
  (getYear dt = yearBase \/ getYear dt = yearBase + 199 ->
     exists status c1,
       setDateTime yearBase dt c = (statusFromBus status, c1) /\
       transactions c1 =
         transactions c ++
         [WriteRegisterData Register.Seconds
            (DateTimeRegister.bytes (encodeDateTime yearBase dt))]).
Proof.
  assert (Hout : getYear dt < yearBase \/ yearBase + 200 <= getYear dt ->
                 setDateTime yearBase dt c = (Error, c)).
  { intros Hy. unfold setDateTime.
    destruct (Z.ltb_spec (getYear dt) yearBase);
      destruct (Z.leb_spec (yearBase + 200) (getYear dt));
      cbn [orb]; try reflexivity; lia. }
  assert (Hin : yearBase <= getYear dt < yearBase + 200 ->
     exists status c1,
       writeRegisterData Register.Seconds
         (DateTimeRegister.bytes (encodeDateTime yearBase dt)) c
         = (status, c1) /\
       setDateTime yearBase dt c = (statusFromBus status, c1) /\
       transactions c1 =
         transactions c ++
         [WriteRegisterData Register.Seconds
            (DateTimeRegister.bytes (encodeDateTime yearBase dt))] /\
       length (DateTimeRegister.bytes (encodeDateTime yearBase dt)) = 7%nat).
  { intros Hy. rewrite setDateTime_in_window by exact Hy.
    destruct (writeRegisterData Register.Seconds
                (DateTimeRegister.bytes (encodeDateTime yearBase dt)) c)
      as [st c1] eqn:Hw.
    exists st, c1. repeat split.
    now apply writeRegisterData_effect in Hw as (Ht & _). }
  repeat apply conj.
  - exact Hout.
  - intros Hy. apply Hout. lia.
  - exact Hin.
  - intros Hy. destruct Hin as (st & c1 & _ & Hs & Ht & _); [lia|].
    now exists st, c1.
Qed.

Lemma setDateTime_year_window_witness :
  setDateTime 2000 eve_1999 blank_chip = (Error, blank_chip) /\
  exists status c1,
    setDateTime 2000 (mkDateTime 2199 12 31 23 59 59 2) blank_chip
      = (statusFromBus status, c1) /\
    transactions c1 =
      transactions blank_chip ++
      [WriteRegisterData Register.Seconds
         (DateTimeRegister.bytes
            (encodeDateTime 2000 (mkDateTime 2199 12 31 23 59 59 2)))].
Proof.
  split.
  - apply (proj1 (setDateTime_year_window 2000 eve_1999 blank_chip)).
    left. cbn. lia.
  - apply (proj2 (proj2 (proj2
      (setDateTime_year_window 2000 (mkDateTime 2199 12 31 23 59 59 2)
                               blank_chip)))).
    right. reflexivity.
Defined.

(** ** Century flag and year reconstruction *)

Lemma month_century_testbit (flag : bool) :
  forall n, 0 <= n < 80 ->
    Z.testbit (u8 (Z.lor (BCD.convertBinToBcd n)
                         (if flag then Z.shiftl 1 7 else 0))) 7 = flag.
Proof.
  intros n Hn. destruct flag.
  - apply (forall_below_spec 80
      (fun x => Z.testbit (u8 (Z.lor (BCD.convertBinToBcd x)
                                     (Z.shiftl 1 7))) 7));
      [vm_compute; reflexivity | lia].
  - apply negb_true_iff.
    apply (forall_below_spec 80
      (fun x => negb (Z.testbit (u8 (Z.lor (BCD.convertBinToBcd x) 0)) 7)));
      [vm_compute; reflexivity | lia].
Qed.

(** X2: [setDateTime] puts the century flag into bit 7 of the month byte
    exactly for the years from the base plus 100 on, whatever the base. *)
Lemma encodeDateTime_century_bit (yb : Z) (dt : DateTime) :
  0 <= getMonth dt < 80 ->
  Z.testbit (DateTimeRegister.month (encodeDateTime yb dt)) 7
  = (yb + 100 <=? getYear dt).
Proof.
  intros Hm. unfold encodeDateTime. cbn [DateTimeRegister.month].
  now apply month_century_testbit.
Qed.

Lemma byte_bit7_test :
  forall m, 0 <= m < 256 ->
    negb (Z.land m (Z.shiftl 1 7) =? 0) = Z.testbit m 7.
Proof.
  intros m Hm.
  apply (forall_below_spec 256
    (fun x => Bool.eqb (negb (Z.land x (Z.shiftl 1 7) =? 0)) (Z.testbit x 7)))
    in Hm; [|vm_compute; reflexivity].
  now apply Bool.eqb_prop in Hm.
Qed.

(** The year of [getDateTime] with its bit test read as a test of bit 7. *)
Lemma decodeDateTime_year (yb : Z) (data : DateTimeRegister.t) :
  0 <= DateTimeRegister.month data < 256 ->
  getYear (decodeDateTime yb data) =
    u16 (BCD.convertBcdToBin (DateTimeRegister.year data) +
         (if Z.testbit (DateTimeRegister.month data) 7
          then yb + 100 else yb)).
Proof.
  intros Hm. unfold decodeDateTime, fromUncheckedValues. cbn [getYear].
  rewrite byte_bit7_test by exact Hm.
  rewrite (u16_small (BCD.convertBcdToBin _))
    by (pose proof (convertBcdToBin_range (DateTimeRegister.year data)); lia).
  reflexivity.
Qed.

(** C1: with the year base 1970 the date 1999-12-31 23:59:59 lies inside the
    window that [setDateTime] accepts and all its fields are in range, yet
    writing it and reading the registers back yields the year 2069: the
    year byte holds the calendar year modulo 100 (99) while [getDateTime]
    adds it to the base.  The other six fields come back unchanged. *)
Theorem roundtrip_breaks_off_century_base :
  1970 <= getYear eve_1999 < 1970 + 200 /\
  DateTime_in_range eve_1999 /\
  exists c1 c2,
    setDateTime 1970 eve_1999 blank_chip = (Success, c1) /\
    getDateTime 1970 eve_1999 c1
      = ((Success, mkDateTime 2069 12 31 23 59 59 5), c2) /\
    decodeDateTime 1970 (encodeDateTime 1970 eve_1999) <> eve_1999.
Proof.
  split; [cbn; lia|]. split; [cbv [DateTime_in_range eve_1999]; cbn; lia|].
  pose (c1 := snd (setDateTime 1970 eve_1999 blank_chip)).
  exists c1, (snd (getDateTime 1970 eve_1999 c1)).
  split; [vm_compute; reflexivity|].
  split; [vm_compute; reflexivity|].
  vm_compute. discriminate.
Qed.

(** C6: with the year base 1970 and the year 2120 (the base plus 150)
    [setDateTime] sets bit 7 of the month byte, as it does for every year
    from the base plus 100 on, and stores the two-digit year 20; decoding
    that image gives 20 + 2070 = 2090 and not 2120. *)
Theorem century_image_decodes_to_other_year :
  getYear mid_2120 = 1970 + 150 /\
  Z.testbit (DateTimeRegister.month (encodeDateTime 1970 mid_2120)) 7 = true /\
  DateTimeRegister.year (encodeDateTime 1970 mid_2120)
    = BCD.convertBinToBcd 20 /\
  exists c1 c2,
    setDateTime 1970 mid_2120 blank_chip = (Success, c1) /\
    getDateTime 1970 mid_2120 c1
      = ((Success, mkDateTime 2090 6 15 12 30 45 6), c2).
Proof.
  split; [reflexivity|]. split; [vm_compute; reflexivity|].
  split; [vm_compute; reflexivity|].
  pose (c1 := snd (setDateTime 1970 mid_2120 blank_chip)).
  exists c1, (snd (getDateTime 1970 mid_2120 c1)).
  split; vm_compute; reflexivity.
Qed.

(** ** Oscillator state *)

(** C3: in [isRunning], when the read of the OSF status bit succeeds and
    reports Set, the running state becomes false, the call returns Success
    and the test of the status register is the only transaction; when the
    bit reads Zero the EOSC bit of the control register is tested next, and
    after a successful test the running state is true exactly when that bit
    reads Zero; the first failing read ends the call with Error at once and
    leaves the caller's variable as it was. *)
Theorem isRunning_short_circuit (running0 : bool) (c c1 : Chip)
    (status1 : WireMaster.Status) (bit1 : WireMaster.BitResult) :
  testBits Register.Status StatusFlag.OSF c = ((status1, bit1), c1) ->
  transactions c1 = transactions c ++ [TestBits Register.Status 0x80] /\
  (status1 = WireMaster.Error ->
     isRunning running0 c = ((Error, running0), c1)) /\
  (status1 = WireMaster.Success -> bit1 = WireMaster.Set_ ->
     isRunning running0 c = ((Success, false), c1)) /\
  (status1 = WireMaster.Success -> bit1 = WireMaster.Zero ->
     forall status2 bit2 c2,
       testBits Register.Control ControlFlag.EOSC c1
         = ((status2, bit2), c2) ->
       transactions c2 =
         transactions c ++ [TestBits Register.Status 0x80;
                            TestBits Register.Control 0x80] /\
       (status2 = WireMaster.Error ->
          isRunning running0 c = ((Error, running0), c2)) /\
       (status2 = WireMaster.Success ->
          exists running,
            isRunning running0 c = ((Success, running), c2) /\
            (running = true <-> bit2 = WireMaster.Zero))).
Proof.
  intros H1.
  pose proof (testBits_effect _ _ _ _ _ H1) as [_ Ht1].
  split; [exact Ht1|].
  unfold isRunning, bind. rewrite H1.
  split; [intros ->; reflexivity|].
  split; [intros -> ->; reflexivity|].
  intros -> -> status2 bit2 c2 H2.
  pose proof (testBits_effect _ _ _ _ _ H2) as [_ Ht2].
  cbn [hasError isSuccessful negb WireMaster.BitResult_eqb].
  rewrite H2.
  split; [rewrite Ht2, Ht1, <- app_assoc; reflexivity|].
  split; [intros ->; reflexivity|].
  intros ->. cbn [hasError isSuccessful negb statusFromBus ret].
  eexists. split; [reflexivity|].
  destruct bit2; cbn; split; congruence.
Qed.

(** ** Alarm flags *)

(** C5: [isAlarm1Set] and [isAlarm2Set] return the status of the initial
    test of their flag.  When that test fails the call ends with Error; when
    it succeeds and the flag reads Set the call reports true and issues the
    write that clears the flag, returning Success whatever the status of
    that write; when the flag reads Zero it reports false and the test is
    the only transaction. *)
Theorem isAlarmSet_read_and_clear (isSet0 : bool) (c c1 : Chip)
    (status1 : WireMaster.Status) (bit1 : WireMaster.BitResult) :
  (testBits Register.Status StatusFlag.A1F c = ((status1, bit1), c1) ->
   transactions c1 = transactions c ++ [TestBits Register.Status 0x01] /\
   (status1 = WireMaster.Error ->
      isAlarm1Set isSet0 c = ((Error, isSet0), c1)) /\
   (status1 = WireMaster.Success -> bit1 = WireMaster.Zero ->
      isAlarm1Set isSet0 c = ((Success, false), c1)) /\
   (status1 = WireMaster.Success -> bit1 = WireMaster.Set_ ->
      forall status2 c2,
        changeBits Register.Status StatusFlag.A1F WireMaster.Clear c1
          = (status2, c2) ->
        isAlarm1Set isSet0 c = ((Success, true), c2) /\
        transactions c2 =
          transactions c ++
          [TestBits Register.Status 0x01;
           ChangeBits Register.Status 0x01 WireMaster.Clear])) /\
  (testBits Register.Status StatusFlag.A2F c = ((status1, bit1), c1) ->
   transactions c1 = transactions c ++ [TestBits Register.Status 0x02] /\
   (status1 = WireMaster.Error ->
      isAlarm2Set isSet0 c = ((Error, isSet0), c1)) /\
   (status1 = WireMaster.Success -> bit1 = WireMaster.Zero ->
      isAlarm2Set isSet0 c = ((Success, false), c1)) /\
   (status1 = WireMaster.Success -> bit1 = WireMaster.Set_ ->
      forall status2 c2,
        changeBits Register.Status StatusFlag.A2F WireMaster.Clear c1
          = (status2, c2) ->
        isAlarm2Set isSet0 c = ((Success, true), c2) /\
        transactions c2 =
          transactions c ++
          [TestBits Register.Status 0x02;
           ChangeBits Register.Status 0x02 WireMaster.Clear])).
Proof.
  split; intros H1;
    pose proof (testBits_effect _ _ _ _ _ H1) as [_ Ht1];
    (split; [exact Ht1|]).
  - unfold isAlarm1Set, bind. rewrite H1.
    split; [intros ->; reflexivity|].
    split; [intros -> ->; reflexivity|].
    intros -> -> status2 c2 H2.
    cbn [hasError isSuccessful negb WireMaster.BitResult_eqb].
    rewrite H2. split; [reflexivity|].
    pose proof (changeBits_effect _ _ _ _ _ _ H2) as Ht2.
    rewrite Ht2, Ht1, <- app_assoc. reflexivity.
  - unfold isAlarm2Set, bind. rewrite H1.
    split; [intros ->; reflexivity|].
    split; [intros -> ->; reflexivity|].
    intros -> -> status2 c2 H2.
    cbn [hasError isSuccessful negb WireMaster.BitResult_eqb].
    rewrite H2. split; [reflexivity|].
    pose proof (changeBits_effect _ _ _ _ _ _ H2) as Ht2.
    rewrite Ht2, Ht1, <- app_assoc. reflexivity.
Qed.

(** ** Starting the oscillator *)

(** C8: [enableOscillator] first clears EOSC in the control register; when
    that write fails the call returns Error with no further transaction,
    otherwise it clears OSF in the status register and returns the status
    of this second write. *)
Theorem enableOscillator_sequence (c c1 : Chip) (status1 : WireMaster.Status) :
  changeBits Register.Control ControlFlag.EOSC WireMaster.Clear c
    = (status1, c1) ->
  transactions c1 =
    transactions c ++ [ChangeBits Register.Control 0x80 WireMaster.Clear] /\
  (status1 = WireMaster.Error -> enableOscillator c = (Error, c1)) /\
  (status1 = WireMaster.Success ->
     forall status2 c2,
       changeBits Register.Status StatusFlag.OSF WireMaster.Clear c1
         = (status2, c2) ->
       enableOscillator c = (statusFromBus status2, c2) /\
       transactions c2 =
         transactions c ++
         [ChangeBits Register.Control 0x80 WireMaster.Clear;
          ChangeBits Register.Status 0x80 WireMaster.Clear]).
Proof.
  intros H1. pose proof (changeBits_effect _ _ _ _ _ _ H1) as Ht1.
  split; [exact Ht1|].
  unfold enableOscillator, bind. rewrite H1.
  split; [intros ->; reflexivity|].
  intros -> status2 c2 H2.
  cbn [hasError isSuccessful negb]. rewrite H2. split; [reflexivity|].
  pose proof (changeBits_effect _ _ _ _ _ _ H2) as Ht2.
  rewrite Ht2, Ht1, <- app_assoc. reflexivity.
Qed.

(** ** Alarm register image *)


Lemma alarm_mode_is_day (m : AlarmMode) :
  (AlarmMode_value m =? AlarmMode_value DayHoursMinutesSeconds) = true
  <-> m = DayHoursMinutesSeconds.
Proof. destruct m; vm_compute; split; congruence. Qed.

(** A BCD field below 80 combined with the don't-care flag: bit 7 is the
    flag, the low seven bits are the BCD digits. *)
Lemma alarm_field (flag : bool) :
  forall n, 0 <= n < 80 ->
    let b := u8 (Z.lor (BCD.convertBinToBcd n) (if flag then 0x80 else 0x00)) in
    Z.testbit b 7 = flag /\ Z.land b 0x7f = BCD.convertBinToBcd n.
Proof.
  intros n Hn b. subst b.
  apply (forall_below_spec 80
    (fun x =>
       let b := u8 (Z.lor (BCD.convertBinToBcd x)
                          (if flag then 0x80 else 0x00)) in
       Bool.eqb (Z.testbit b 7) flag
       && (Z.land b 0x7f =? BCD.convertBinToBcd x))) in Hn;
    [|destruct flag; vm_compute; reflexivity].
  cbv zeta in Hn. apply andb_true_iff in Hn as [Hb Hl].
  split; [now apply Bool.eqb_prop | now apply Z.eqb_eq].
Qed.









(** ** Alarm writes *)

Lemma u8_idem z : u8 (u8 z) = u8 z.
Proof. unfold u8. apply Z.mod_mod. lia. Qed.

(** Every byte of the alarm image is already narrowed to eight bits. *)
Lemma fillAlarmRegister_bytes (alarmMode : AlarmMode) (dt : DateTime) :
  map u8 (AlarmRegister.bytes (fillAlarmRegister alarmMode dt))
  = AlarmRegister.bytes (fillAlarmRegister alarmMode dt).
Proof.
  unfold fillAlarmRegister, AlarmRegister.bytes.
  cbn [AlarmRegister.seconds AlarmRegister.minutes AlarmRegister.hours
       AlarmRegister.day map].
  now rewrite !u8_idem.
Qed.

(** C9: [setAlarm2] is exactly one batched write, of the three bytes
    minutes, hours and day of the alarm image, starting at register 0x0B,
    and [setAlarm1] exactly one batched write of all four bytes starting at
    register 0x07: the call returns the status of that write, which is the
    outcome the transport reports for it, and leaves the chip as that write
    leaves it.  Registers outside 0x0B..0x0D, respectively 0x07..0x0A, keep
    their content, and after a successful write on the 19-register chip the
    written registers hold the image bytes. *)
Theorem setAlarm_written_range (alarmMode : AlarmMode) (dt : DateTime)
    (c : Chip) :
  let data := fillAlarmRegister alarmMode dt in
  let image1 := [AlarmRegister.seconds data; AlarmRegister.minutes data;
                 AlarmRegister.hours data; AlarmRegister.day data] in
  let image2 := [AlarmRegister.minutes data; AlarmRegister.hours data;
                 AlarmRegister.day data] in
  (Register.address Register.Alarm1Seconds = 0x07%nat /\
   exists status c1,
     writeRegisterData Register.Alarm1Seconds image1 c = (status, c1) /\
     status = hd WireMaster.Success (outcomes c) /\
     setAlarm1 alarmMode dt c = (statusFromBus status, c1) /\
     transactions c1 =
       transactions c ++ [WriteRegisterData Register.Alarm1Seconds image1] /\
     outcomes c1 = tl (outcomes c) /\
     (forall j : nat, (j < 0x07 \/ 0x0b <= j)%nat ->
        registers c1 !! j = registers c !! j) /\
     (status = WireMaster.Success -> length (registers c) = 19%nat ->
        registers c1 !! 0x07%nat = Some (AlarmRegister.seconds data) /\
        registers c1 !! 0x08%nat = Some (AlarmRegister.minutes data) /\
        registers c1 !! 0x09%nat = Some (AlarmRegister.hours data) /\
        registers c1 !! 0x0a%nat = Some (AlarmRegister.day data))) /\
  (Register.address Register.Alarm2Minutes = 0x0b%nat /\
   exists status c1,
     writeRegisterData Register.Alarm2Minutes image2 c = (status, c1) /\
     status = hd WireMaster.Success (outcomes c) /\
     setAlarm2 alarmMode dt c = (statusFromBus status, c1) /\
     transactions c1 =
       transactions c ++ [WriteRegisterData Register.Alarm2Minutes image2] /\
     outcomes c1 = tl (outcomes c) /\
     (forall j : nat, (j < 0x0b \/ 0x0e <= j)%nat ->
        registers c1 !! j = registers c !! j) /\
     (status = WireMaster.Success -> length (registers c) = 19%nat ->
        registers c1 !! 0x0b%nat = Some (AlarmRegister.minutes data) /\
        registers c1 !! 0x0c%nat = Some (AlarmRegister.hours data) /\
        registers c1 !! 0x0d%nat = Some (AlarmRegister.day data))).
Proof.
  intros data image1 image2.
  pose proof (fillAlarmRegister_bytes alarmMode dt) as Hbytes.
  fold data in Hbytes. unfold AlarmRegister.bytes in Hbytes.
  cbn [map] in Hbytes. injection Hbytes as Hs Hmi Hh Hd.
  assert (Hwrite : forall reg image st cw,
            writeRegisterData reg image c = (st, cw) ->
            st = hd WireMaster.Success (outcomes c) /\
            outcomes cw = tl (outcomes c)).
  { intros reg image st cw. unfold writeRegisterData, bind, modify, ret.
    destruct (transact_spec (WriteRegisterData reg image) c) as [s Hs'].
    pose proof Hs' as Hhd. unfold transact in Hhd.
    rewrite Hs'. destruct (outcomes c) as [|o rest];
      injection Hhd as <-; destruct (isSuccessful _);
      intros [= <- <-]; auto. }
  split; (split; [reflexivity|]).
  - unfold setAlarm1, bind. fold data.
    change (firstn AlarmRegister.sizeof (AlarmRegister.bytes data))
      with image1.
    destruct (writeRegisterData Register.Alarm1Seconds image1 c)
      as [status c1] eqn:Hw.
    destruct (Hwrite _ _ _ _ Hw) as [Hst Hout].
    apply writeRegisterData_effect in Hw as (Ht & Hframe & Hregs).
    exists status, c1. split; [reflexivity|]. split; [exact Hst|].
    split; [reflexivity|]. split; [exact Ht|]. split; [exact Hout|].
    split.
    + intros j Hj. apply Hframe. cbn. lia.
    + intros Hok Hlen. rewrite (Hregs Hok).
      rewrite !list_lookup_inserts by (cbn; lia).
      cbn. rewrite Hs, Hmi, Hh, Hd. auto.
  - unfold setAlarm2, bind. fold data.
    change (firstn (AlarmRegister.sizeof - 1)
                   (skipn 1 (AlarmRegister.bytes data)))
      with image2.
    destruct (writeRegisterData Register.Alarm2Minutes image2 c)
      as [status c1] eqn:Hw.
    destruct (Hwrite _ _ _ _ Hw) as [Hst Hout].
    apply writeRegisterData_effect in Hw as (Ht & Hframe & Hregs).
    exists status, c1. split; [reflexivity|]. split; [exact Hst|].
    split; [reflexivity|]. split; [exact Ht|]. split; [exact Hout|].
    split.
    + intros j Hj. apply Hframe. cbn. lia.
    + intros Hok Hlen. rewrite (Hregs Hok).
      rewrite !list_lookup_inserts by (cbn; lia).
      cbn. rewrite Hmi, Hh, Hd. auto.
Qed.

(** ** Interrupt pin mode *)

(** C10: [setIntPinMode] issues the same masked write, value 0b00101 under
    mask 0b00011111 on the control register, for Alarm1, Alarm2 and Alarm12,
    and the same write with value 0 for Disabled and SquareWave1Hz; the
    result and the chip afterwards are the same within each group. *)
Theorem setIntPinMode_shared_values (c : Chip) :
  (exists status c1,
     writeBits Register.Control 0x1f 0x05 c = (status, c1) /\
     transactions c1 =
       transactions c ++ [WriteBits Register.Control 0x1f 0x05] /\
     setIntPinMode Alarm1 c = (statusFromBus status, c1) /\
     setIntPinMode Alarm2 c = (statusFromBus status, c1) /\
     setIntPinMode Alarm12 c = (statusFromBus status, c1)) /\
  (exists status c1,
     writeBits Register.Control 0x1f 0x00 c = (status, c1) /\
     transactions c1 =
       transactions c ++ [WriteBits Register.Control 0x1f 0x00] /\
     setIntPinMode Disabled c = (statusFromBus status, c1) /\
     setIntPinMode SquareWave1Hz c = (statusFromBus status, c1)) /\
  IntPinMode_value Alarm1 = IntPinMode_value Alarm2 /\
  IntPinMode_value Alarm2 = IntPinMode_value Alarm12 /\
  IntPinMode_value Disabled = IntPinMode_value SquareWave1Hz.
Proof.
  split; [|split; [|repeat split]].
  - destruct (writeBits Register.Control 0x1f 0x05 c) as [status c1] eqn:Hw.
    exists status, c1. split; [reflexivity|].
    split; [exact (writeBits_effect _ _ _ _ _ _ Hw)|].
    unfold setIntPinMode, bind. cbn [IntPinMode_value]. rewrite Hw. auto.
  - destruct (writeBits Register.Control 0x1f 0x00 c) as [status c1] eqn:Hw.
    exists status, c1. split; [reflexivity|].
    split; [exact (writeBits_effect _ _ _ _ _ _ Hw)|].
    unfold setIntPinMode, bind. cbn [IntPinMode_value]. rewrite Hw. auto.
Qed.

(** ** Temperature *)

Lemma int8_range z : -128 <= int8 z < 128.
Proof.
  unfold int8. pose proof (Z.mod_pos_bound z 256 ltac:(lia)) as Hb.
  fold (u8 z) in Hb. cbv zeta. destruct (Z.ltb_spec (u8 z) 128); lia.
Qed.

(** [low >> 6] is the number formed by the top two bits of the byte. *)
Lemma top_two_bits :
  forall low, 0 <= low < 256 ->
    Z.shiftr low 6 = 2 * Z.b2z (Z.testbit low 7) + Z.b2z (Z.testbit low 6).
Proof.
  intros low Hl. apply Z.eqb_eq.
  apply (forall_below_spec 256
    (fun x => Z.shiftr x 6
              =? 2 * Z.b2z (Z.testbit x 7) + Z.b2z (Z.testbit x 6)));
    [vm_compute; reflexivity | lia].
Qed.

(** Single precision computes the specified temperature without rounding,
    for every signed integer part and every low byte. *)
Lemma decodeTemperature_exact (high low : Z) :
  -128 <= high < 128 -> 0 <= low < 256 ->
  exists q,
    Float32.to_Q (decodeTemperature (TemperatureRegister.mk high low)) = Some q
    /\ (q == temperature_value high low)%Q.
Proof.
  intros Hh Hl.
  assert (Hall : forall_below 256 (fun x =>
            forall_below 256 (fun l => temperature_exact (x - 128) l)) = true)
    by (vm_compute; reflexivity).
  pose proof (forall_below_spec _ _ Hall (high + 128) ltac:(lia)) as Hrow.
  cbv beta in Hrow.
  pose proof (forall_below_spec _ _ Hrow low ltac:(lia)) as Hcell.
  cbv beta in Hcell.
  replace (high + 128 - 128) with high in Hcell by lia.
  unfold temperature_exact in Hcell.
  destruct (Float32.to_Q (decodeTemperature (TemperatureRegister.mk high low)))
    as [q|]; [|discriminate].
  exists q. split; [reflexivity | now apply Qeq_bool_iff].
Qed.

(** C7: after a successful read of the two temperature registers,
    [getTemperature] returns Success and stores the float that is exactly
    high + (low >> 6) * 0.25 when the signed 8-bit integer part high is not
    negative and exactly high - (low >> 6) * 0.25 when it is, where
    low >> 6 is the number in the top two bits of the low byte; the pair
    (25, 0b01000000) gives 25.25 and the pair (-3, 0b01000000) gives
    -3.25. *)
Theorem getTemperature_decode (temperature0 : spec_float) (c c1 : Chip)
    (buffer : list Z) :
  readRegisterData Register.TemperatureHigh 2 c
    = ((WireMaster.Success, buffer), c1) ->
  let data := TemperatureRegister.of_bytes buffer in
  let high := TemperatureRegister.high data in
  let low := TemperatureRegister.low data in
  getTemperature temperature0 c = ((Success, decodeTemperature data), c1) /\
  high = int8 (nth 0 buffer 0) /\ low = u8 (nth 1 buffer 0) /\
  Z.shiftr low 6 = 2 * Z.b2z (Z.testbit low 7) + Z.b2z (Z.testbit low 6) /\
  (exists q,
     Float32.to_Q (decodeTemperature data) = Some q /\
     (0 <= high ->
        (q == inject_Z high + inject_Z (Z.shiftr low 6) * (1 # 4))%Q) /\
     (high < 0 ->
        (q == inject_Z high - inject_Z (Z.shiftr low 6) * (1 # 4))%Q) /\
     (buffer = [25; 0x40] -> high = 25 /\ (q == 101 # 4)%Q) /\
     (buffer = [0xfd; 0x40] -> high = -3 /\ (q == - (13 # 4))%Q)).
Proof.
  intros Hread data high low.
  assert (Hlow : 0 <= low < 256).
  { subst low data.
    cbn [TemperatureRegister.of_bytes TemperatureRegister.low].
    unfold u8. apply Z.mod_pos_bound. lia. }
  assert (Hhigh : -128 <= high < 128) by apply int8_range.
  split.
  { unfold getTemperature, bind.
    change TemperatureRegister.sizeof with 2%nat. rewrite Hread.
    reflexivity. }
  split; [reflexivity|]. split; [reflexivity|].
  split; [now apply top_two_bits|].
  destruct (decodeTemperature_exact high low Hhigh Hlow) as (q & Hq & Hval).
  exists q. split; [exact Hq|].
  unfold temperature_value in Hval.
  split; [|split; [|split]].
  - intros Hpos. destruct (Z.ltb_spec high 0); [lia | exact Hval].
  - intros Hneg. destruct (Z.ltb_spec high 0); [exact Hval | lia].
  - intros Hbuf. subst high low data. rewrite Hbuf in Hval |- *.
    split; [reflexivity|]. rewrite Hval. vm_compute. reflexivity.
  - intros Hbuf. subst high low data. rewrite Hbuf in Hval |- *.
    split; [reflexivity|]. rewrite Hval. vm_compute. reflexivity.
Qed.

(** ** The theorems at concrete chips *)

Lemma isRunning_short_circuit_witness :
  let stopped := chip_with 0x00 0x80 [] in
  let running := chip_with 0x00 0x00 [] in
  isRunning true stopped
    = ((Success, false), after (TestBits Register.Status 0x80) stopped) /\
  isRunning false running
    = ((Success, true),
       after (TestBits Register.Control 0x80)
         (after (TestBits Register.Status 0x80) running)).
Proof.
  intros stopped running. split.
  - apply (proj1 (proj2 (proj2
      (isRunning_short_circuit true stopped
         (after (TestBits Register.Status 0x80) stopped)
         WireMaster.Success WireMaster.Set_ eq_refl)))); reflexivity.
  - destruct (proj2 (proj2 (proj2
      (isRunning_short_circuit false running
         (after (TestBits Register.Status 0x80) running)
         WireMaster.Success WireMaster.Zero eq_refl)))
      eq_refl eq_refl WireMaster.Success WireMaster.Zero
      (after (TestBits Register.Control 0x80)
         (after (TestBits Register.Status 0x80) running)) eq_refl)
      as (_ & _ & Hok).
    destruct (Hok eq_refl) as (r & Hrun & Hiff).
    rewrite Hrun. now rewrite (proj2 Hiff eq_refl).
Defined.

Lemma isAlarmSet_read_and_clear_witness :
  let fired := chip_with 0x00 0x03 [WireMaster.Success; WireMaster.Error] in
  let tested1 := after (TestBits Register.Status 0x01) fired in
  let tested2 := after (TestBits Register.Status 0x02) fired in
  isAlarm1Set false fired
    = ((Success, true),
       after (ChangeBits Register.Status 0x01 WireMaster.Clear) tested1) /\
  isAlarm2Set false fired
    = ((Success, true),
       after (ChangeBits Register.Status 0x02 WireMaster.Clear) tested2).
Proof.
  intros fired tested1 tested2. split.
  - apply (proj2 (proj2 (proj2
      (proj1 (isAlarmSet_read_and_clear false fired tested1
                WireMaster.Success WireMaster.Set_) eq_refl)))
      eq_refl eq_refl WireMaster.Error). reflexivity.
  - apply (proj2 (proj2 (proj2
      (proj2 (isAlarmSet_read_and_clear false fired tested2
                WireMaster.Success WireMaster.Set_) eq_refl)))
      eq_refl eq_refl WireMaster.Error). reflexivity.
Defined.

Lemma enableOscillator_sequence_witness :
  let failing := chip_with 0x80 0x80 [WireMaster.Error] in
  let stopped := chip_with 0x80 0x80 [] in
  enableOscillator failing
    = (Error,
       after (ChangeBits Register.Control 0x80 WireMaster.Clear) failing) /\
  exists c2,
    enableOscillator stopped = (Success, c2) /\
    transactions c2 =
      [ChangeBits Register.Control 0x80 WireMaster.Clear;
       ChangeBits Register.Status 0x80 WireMaster.Clear] /\
    registers c2 !! Register.address Register.Control = Some 0 /\
    registers c2 !! Register.address Register.Status = Some 0.
Proof.
  intros failing stopped. split.
  - apply (proj1 (proj2
      (enableOscillator_sequence failing
         (after (ChangeBits Register.Control 0x80 WireMaster.Clear) failing)
         WireMaster.Error eq_refl))). reflexivity.
  - pose (c1 := snd (changeBits Register.Control ControlFlag.EOSC
                       WireMaster.Clear stopped)).
    pose (c2 := snd (changeBits Register.Status StatusFlag.OSF
                       WireMaster.Clear c1)).
    exists c2.
    destruct (proj2 (proj2
      (enableOscillator_sequence stopped c1 WireMaster.Success eq_refl))
      eq_refl WireMaster.Success c2 eq_refl) as [Hres Hlog].
    split; [exact Hres|]. split; [exact Hlog|].
    split; vm_compute; reflexivity.
Defined.


Lemma getTemperature_decode_witness :
  let warm := chip_with_temperature 25 0x40 in
  let frost := chip_with_temperature 0xfd 0x40 in
  (exists t q, getTemperature (S754_zero false) warm
      = ((Success, t),
         after (ReadRegisterData Register.TemperatureHigh 2) warm) /\
     Float32.to_Q t = Some q /\ (q == 101 # 4)%Q) /\
  (exists t q, getTemperature (S754_zero false) frost
      = ((Success, t),
         after (ReadRegisterData Register.TemperatureHigh 2) frost) /\
     Float32.to_Q t = Some q /\ (q == - (13 # 4))%Q).
Proof.
  intros warm frost. split.
  - destruct (getTemperature_decode (S754_zero false) warm
                (after (ReadRegisterData Register.TemperatureHigh 2) warm)
                [25; 0x40] eq_refl)
      as (Hres & _ & _ & _ & q & Hq & _ & _ & Hwarm & _).
    eexists _, q. split; [exact Hres|].
    split; [exact Hq | exact (proj2 (Hwarm eq_refl))].
  - destruct (getTemperature_decode (S754_zero false) frost
                (after (ReadRegisterData Register.TemperatureHigh 2) frost)
                [0xfd; 0x40] eq_refl)
      as (Hres & _ & _ & _ & q & Hq & _ & _ & _ & Hfrost).
    eexists _, q. split; [exact Hres|].
    split; [exact Hq | exact (proj2 (Hfrost eq_refl))].
Defined.

Lemma setDateTime_getDateTime_century_base_witness :
  snd (fst (getDateTime 2000 eve_1999
              (snd (setDateTime 2000 leap_2024 blank_chip))))
  = leap_2024.
Proof.
  pose (c1 := snd (setDateTime 2000 leap_2024 blank_chip)).
  pose (c2 := snd (getDateTime 2000 eve_1999 c1)).
  apply (setDateTime_getDateTime_century_base
           2000 leap_2024 eve_1999 _ blank_chip c1 c2).
  - lia.
  - reflexivity.
  - cbn. lia.
  - cbn. lia.
  - unfold DateTime_in_range, leap_2024. cbn. lia.
  - cbn. lia.
  - vm_compute. reflexivity.
  - vm_compute. reflexivity.
Defined.

Lemma encodeDateTime_century_bit_witness :
  Z.testbit (DateTimeRegister.month (encodeDateTime 2000 mid_2120)) 7 = true /\
  Z.testbit (DateTimeRegister.month (encodeDateTime 2000 leap_2024)) 7 = false.
Proof.
  split.
  - apply (encodeDateTime_century_bit 2000 mid_2120). cbn. lia.
  - apply (encodeDateTime_century_bit 2000 leap_2024). cbn. lia.
Defined.

(** * Further properties of the driver *)

(** ** Bus calls in terms of the chip *)

Lemma transact_after (t : Transaction) (c : Chip) :
  transact t c = (next_outcome c, after t c).
Proof.
  unfold transact, next_outcome, after. now destruct (outcomes c).
Qed.

Lemma testBits_run reg mask c :
  testBits reg mask c =
    ((next_outcome c,
      if isSuccessful (next_outcome c)
      then if Z.land (peek (registers c) (Register.address reg)) mask =? 0
           then WireMaster.Zero else WireMaster.Set_
      else WireMaster.Zero),
     after (TestBits reg mask) c).
Proof.
  unfold testBits, bind, inspect, ret. rewrite transact_after.
  now destruct (isSuccessful (next_outcome c)).
Qed.

Lemma changeBits_run reg mask op c :
  changeBits reg mask op c =
    (next_outcome c,
     if isSuccessful (next_outcome c)
     then mkChip
            (<[Register.address reg :=
                 match op with
                 | WireMaster.OpSet =>
                     Z.lor (peek (registers c) (Register.address reg))
                           (u8 mask)
                 | WireMaster.Clear =>
                     Z.land (peek (registers c) (Register.address reg))
                            (255 - u8 mask)
                 end]> (registers c))
            (tl (outcomes c))
            (transactions c ++ [ChangeBits reg mask op])
     else after (ChangeBits reg mask op) c).
Proof.
  unfold changeBits, bind, modify, ret. rewrite transact_after.
  now destruct (isSuccessful (next_outcome c)).
Qed.

Lemma writeBits_run reg mask value c :
  writeBits reg mask value c =
    (next_outcome c,
     if isSuccessful (next_outcome c)
     then mkChip
            (<[Register.address reg :=
                 Z.lor (Z.land (peek (registers c) (Register.address reg))
                               (255 - u8 mask))
                       (Z.land (u8 value) (u8 mask))]> (registers c))
            (tl (outcomes c))
            (transactions c ++ [WriteBits reg mask value])
     else after (WriteBits reg mask value) c).
Proof.
  unfold writeBits, bind, modify, ret. rewrite transact_after.
  now destruct (isSuccessful (next_outcome c)).
Qed.

Lemma readRegisterData_run reg count c :
  readRegisterData reg count c =
    ((next_outcome c,
      if isSuccessful (next_outcome c)
      then map (peek (registers c)) (seq (Register.address reg) count)
      else []),
     after (ReadRegisterData reg count) c).
Proof.
  unfold readRegisterData, bind, inspect, ret. rewrite transact_after.
  now destruct (isSuccessful (next_outcome c)).
Qed.

Lemma peek_insert_eq (regs : list Z) (i : nat) (v : Z) :
  (i < length regs)%nat -> peek (<[i := v]> regs) i = v.
Proof. intros Hi. unfold peek. now rewrite list_lookup_insert_eq. Qed.

Lemma peek_insert_ne (regs : list Z) (i j : nat) (v : Z) :
  i <> j -> peek (<[i := v]> regs) j = peek regs j.
Proof. intros Hij. unfold peek. now rewrite list_lookup_insert_ne. Qed.

(** ** Calls that only read *)

(** X4: [getDateTime], [isRunning], [getTemperature] and
    [getAllRegisterValuesAsString] never change a register of the chip,
    whatever the registers hold and whatever the transport reports; the
    date/time read and the dump each issue exactly one batched read, of 7
    registers from Seconds and of all 19 registers from Seconds. *)
Theorem queries_leave_registers
    (yearBase : Z) (dt0 : DateTime) (running0 : bool) (t0 : spec_float)
    (String : Type) (String_empty : String)
    (append : String -> ascii -> String)
    (appendHex appendBin : String -> Z -> String) (str0 : String)
    (c : Chip) :
  registers (snd (getDateTime yearBase dt0 c)) = registers c /\
  registers (snd (isRunning running0 c)) = registers c /\
  registers (snd (getTemperature t0 c)) = registers c /\
  registers (snd (getAllRegisterValuesAsString
                    String String_empty append appendHex appendBin str0 c))
    = registers c /\
  transactions (snd (getDateTime yearBase dt0 c))
    = transactions c ++ [ReadRegisterData Register.Seconds 7] /\
  transactions (snd (getAllRegisterValuesAsString
                       String String_empty append appendHex appendBin str0 c))
    = transactions c ++ [ReadRegisterData Register.Seconds 19].
Proof.
  repeat apply conj.
  - unfold getDateTime, bind. rewrite readRegisterData_run.
    now destruct (isSuccessful (next_outcome c)).
  - unfold isRunning, bind. rewrite testBits_run.
    destruct (next_outcome c) eqn:H1; cbn [hasError isSuccessful negb];
      [|reflexivity].
    destruct (Z.land _ _ =? 0); cbn [WireMaster.BitResult_eqb];
      [|reflexivity].
    rewrite testBits_run.
    destruct (next_outcome (after _ c)); reflexivity.
  - unfold getTemperature, bind. rewrite readRegisterData_run.
    now destruct (next_outcome c).
  - unfold getAllRegisterValuesAsString, bind. rewrite readRegisterData_run.
    now destruct (next_outcome c).
  - unfold getDateTime, bind. rewrite readRegisterData_run.
    now destruct (isSuccessful (next_outcome c)).
  - unfold getAllRegisterValuesAsString, bind. rewrite readRegisterData_run.
    now destruct (next_outcome c).
Qed.

(** X5: whenever [getDateTime], [isRunning], [isAlarm1Set], [isAlarm2Set],
    [getTemperature] or [getAllRegisterValuesAsString] returns Error, the
    caller's output variable still holds the value it had before the
    call. *)
Theorem error_keeps_output_variable
    (yearBase : Z) (dt0 : DateTime) (flag0 : bool) (t0 : spec_float)
    (String : Type) (String_empty : String)
    (append : String -> ascii -> String)
    (appendHex appendBin : String -> Z -> String) (str0 : String)
    (c : Chip) :
  (fst (fst (getDateTime yearBase dt0 c)) = Error ->
     snd (fst (getDateTime yearBase dt0 c)) = dt0) /\
  (fst (fst (isRunning flag0 c)) = Error ->
     snd (fst (isRunning flag0 c)) = flag0) /\
  (fst (fst (isAlarm1Set flag0 c)) = Error ->
     snd (fst (isAlarm1Set flag0 c)) = flag0) /\
  (fst (fst (isAlarm2Set flag0 c)) = Error ->
     snd (fst (isAlarm2Set flag0 c)) = flag0) /\
  (fst (fst (getTemperature t0 c)) = Error ->
     snd (fst (getTemperature t0 c)) = t0) /\
  (fst (fst (getAllRegisterValuesAsString
               String String_empty append appendHex appendBin str0 c))
     = Error ->
   snd (fst (getAllRegisterValuesAsString
               String String_empty append appendHex appendBin str0 c))
     = str0).
Proof.
  repeat apply conj.
  - unfold getDateTime, bind. rewrite readRegisterData_run.
    destruct (next_outcome c); cbn; [discriminate | reflexivity].
  - unfold isRunning, bind. rewrite testBits_run.
    destruct (next_outcome c) eqn:H1; cbn [hasError isSuccessful negb];
      [|reflexivity].
    destruct (Z.land _ _ =? 0); cbn [WireMaster.BitResult_eqb];
      [|cbn; discriminate].
    rewrite testBits_run.
    destruct (next_outcome (after _ c)); cbn; [discriminate | reflexivity].
  - unfold isAlarm1Set, bind. rewrite testBits_run.
    destruct (next_outcome c) eqn:H1; cbn [hasError isSuccessful negb];
      [|reflexivity].
    destruct (Z.land _ _ =? 0); cbn [WireMaster.BitResult_eqb].
    + cbn. discriminate.
    + destruct (changeBits _ _ _ _). cbn. discriminate.
  - unfold isAlarm2Set, bind. rewrite testBits_run.
    destruct (next_outcome c) eqn:H1; cbn [hasError isSuccessful negb];
      [|reflexivity].
    destruct (Z.land _ _ =? 0); cbn [WireMaster.BitResult_eqb].
    + cbn. discriminate.
    + destruct (changeBits _ _ _ _). cbn. discriminate.
  - unfold getTemperature, bind. rewrite readRegisterData_run.
    destruct (next_outcome c); cbn; [discriminate | reflexivity].
  - unfold getAllRegisterValuesAsString, bind. rewrite readRegisterData_run.
    destruct (next_outcome c); cbn; [discriminate | reflexivity].
Qed.

(** ** Canonical register contents *)

Lemma byte_cases (p q : Z -> bool) :
  forall_below 256 (fun v => implb (p v) (q v)) = true ->
  forall v, 0 <= v < 256 -> p v = true -> q v = true.
Proof.
  intros Hall v Hv Hp.
  pose proof (forall_below_spec 256 _ Hall v ltac:(lia)) as H.
  cbv beta in H. now rewrite Hp in H.
Qed.

Lemma is_bcd_between_byte lo hi v :
  is_bcd_between lo hi v = true -> 0 <= v < 256.
Proof.
  unfold is_bcd_between. rewrite !andb_true_iff. lia.
Qed.

Lemma is_bcd_between_decode lo hi v :
  is_bcd_between lo hi v = true -> lo <= BCD.convertBcdToBin v <= hi.
Proof.
  unfold is_bcd_between. rewrite !andb_true_iff. lia.
Qed.

(** A valid BCD byte is the encoding of its decoding, also when it is read
    through a mask that covers its digits. *)
Lemma bcd_reencode (hi mask : Z) :
  forall_below 256 (fun v =>
    implb (is_bcd_between 0 hi v)
          ((BCD.convertBinToBcd (BCD.convertBcdToBin (Z.land v mask)) =? v)
           && (BCD.convertBcdToBin (Z.land v mask) =? BCD.convertBcdToBin v)))
    = true ->
  forall v, is_bcd_between 0 hi v = true ->
    BCD.convertBinToBcd (BCD.convertBcdToBin (Z.land v mask)) = v /\
    BCD.convertBcdToBin (Z.land v mask) = BCD.convertBcdToBin v.
Proof.
  intros Hall v Hv.
  pose proof (byte_cases _ _ Hall v (is_bcd_between_byte _ _ _ Hv) Hv) as H.
  apply andb_true_iff in H as [H1 H2].
  split; now apply Z.eqb_eq.
Qed.

Lemma is_bcd_between_weaken lo hi v :
  is_bcd_between lo hi v = true -> is_bcd_between 0 hi v = true.
Proof.
  unfold is_bcd_between. rewrite !andb_true_iff.
  intros H. pose proof (convertBcdToBin_range v). repeat split; try apply H.
  apply Z.leb_le. lia.
Qed.

(** The month byte splits into the month digits and the century flag. *)
Lemma month_reencode :
  forall m, 0 <= m < 256 ->
    is_bcd_between 1 12 (Z.land m 0x7f) = true ->
    BCD.convertBcdToBin (Z.land m 0x1f)
      = BCD.convertBcdToBin (Z.land m 0x7f) /\
    u8 (Z.lor (BCD.convertBinToBcd (BCD.convertBcdToBin (Z.land m 0x1f)))
              (if negb (Z.land m (Z.shiftl 1 7) =? 0)
               then Z.shiftl 1 7 else 0)) = m.
Proof.
  intros m Hm Hbcd.
  pose proof (byte_cases
    (fun v => is_bcd_between 1 12 (Z.land v 0x7f))
    (fun v =>
       (BCD.convertBcdToBin (Z.land v 0x1f)
          =? BCD.convertBcdToBin (Z.land v 0x7f))
       && (u8 (Z.lor (BCD.convertBinToBcd
                        (BCD.convertBcdToBin (Z.land v 0x1f)))
                     (if negb (Z.land v (Z.shiftl 1 7) =? 0)
                      then Z.shiftl 1 7 else 0)) =? v))
    ltac:(vm_compute; reflexivity) m Hm Hbcd) as H.
  cbv beta in H. apply andb_true_iff in H as [H1 H2].
  split; now apply Z.eqb_eq.
Qed.

(** X7: for a date/time with fields in range, the register block that
    [setDateTime] prepares is canonical for any year base: every byte holds
    valid BCD digits in calendar range, bits 6 and 7 of the hours byte are
    clear (24-hour mode), and bit 7 of seconds and minutes is clear. *)
Theorem encodeDateTime_canonical (yearBase : Z) (dt : DateTime) :
  DateTime_in_range dt ->
  canonical (encodeDateTime yearBase dt) = true /\
  Z.testbit (DateTimeRegister.hours (encodeDateTime yearBase dt)) 6 = false /\
  Z.testbit (DateTimeRegister.hours (encodeDateTime yearBase dt)) 7 = false /\
  Z.testbit (DateTimeRegister.seconds (encodeDateTime yearBase dt)) 7 = false /\
  Z.testbit (DateTimeRegister.minutes (encodeDateTime yearBase dt)) 7 = false.
Proof.
  intros (Hmo & Hd & Hh & Hmi & Hs & Hw).
  unfold canonical, encodeDateTime.
  cbn [DateTimeRegister.year DateTimeRegister.month DateTimeRegister.day
       DateTimeRegister.hours DateTimeRegister.minutes
       DateTimeRegister.seconds DateTimeRegister.dayOfWeek].
  assert (H60 : forall n, 0 <= n < 60 ->
            is_bcd_between 0 59 (BCD.convertBinToBcd n) = true /\
            Z.testbit (BCD.convertBinToBcd n) 7 = false).
  { intros n Hn.
    pose proof (forall_below_spec 60
      (fun n => is_bcd_between 0 59 (BCD.convertBinToBcd n)
                && negb (Z.testbit (BCD.convertBinToBcd n) 7))
      ltac:(vm_compute; reflexivity) n ltac:(lia)) as H.
    cbv beta in H. apply andb_true_iff in H as [H1 H2].
    now apply negb_true_iff in H2. }
  assert (H24 : forall n, 0 <= n < 24 ->
            is_bcd_between 0 23 (BCD.convertBinToBcd n) = true /\
            Z.testbit (BCD.convertBinToBcd n) 6 = false /\
            Z.testbit (BCD.convertBinToBcd n) 7 = false).
  { intros n Hn.
    pose proof (forall_below_spec 24
      (fun n => is_bcd_between 0 23 (BCD.convertBinToBcd n)
                && negb (Z.testbit (BCD.convertBinToBcd n) 6)
                && negb (Z.testbit (BCD.convertBinToBcd n) 7))
      ltac:(vm_compute; reflexivity) n ltac:(lia)) as H.
    cbv beta in H. apply andb_true_iff in H as [H H3].
    apply andb_true_iff in H as [H1 H2].
    apply negb_true_iff in H2, H3. auto. }
  assert (H31 : forall n, 1 <= n <= 31 ->
            is_bcd_between 1 31 (BCD.convertBinToBcd n) = true).
  { intros n Hn.
    pose proof (forall_below_spec 32
      (fun n => (n =? 0) || is_bcd_between 1 31 (BCD.convertBinToBcd n))
      ltac:(vm_compute; reflexivity) n ltac:(lia)) as H.
    cbv beta in H. apply orb_true_iff in H as [H|H];
      [apply Z.eqb_eq in H; lia | exact H]. }
  assert (H100 : forall n, 0 <= n < 100 ->
            is_bcd_between 0 99 (BCD.convertBinToBcd n) = true).
  { intros n Hn.
    exact (forall_below_spec 100
      (fun n => is_bcd_between 0 99 (BCD.convertBinToBcd n))
      ltac:(vm_compute; reflexivity) n ltac:(lia)). }
  assert (Hmonth : forall (flag : bool) n, 1 <= n <= 12 ->
    let b := u8 (Z.lor (BCD.convertBinToBcd n)
                       (if flag then Z.shiftl 1 7 else 0)) in
    (0 <=? b) && (b <? 256) && is_bcd_between 1 12 (Z.land b 0x7f) = true).
  { intros flag n Hn b. subst b.
    pose proof (forall_below_spec 13
      (fun n => (n =? 0) ||
         let b := u8 (Z.lor (BCD.convertBinToBcd n)
                            (if flag then Z.shiftl 1 7 else 0)) in
         (0 <=? b) && (b <? 256) && is_bcd_between 1 12 (Z.land b 0x7f))
      ltac:(destruct flag; vm_compute; reflexivity) n ltac:(lia)) as H.
    cbv beta zeta in H. apply orb_true_iff in H as [H|H];
      [apply Z.eqb_eq in H; lia | exact H]. }
  destruct (H60 (getSecond dt)) as [Hs1 Hs2]; [lia|].
  destruct (H60 (getMinute dt)) as [Hmi1 Hmi2]; [lia|].
  destruct (H24 (getHour dt)) as (Hh1 & Hh2 & Hh3); [lia|].
  specialize (Hmonth (yearBase + 100 <=? getYear dt) (getMonth dt) Hmo).
  cbv zeta in Hmonth. apply andb_true_iff in Hmonth as [Hb Hm3].
  apply andb_true_iff in Hb as [Hm1 Hm2].
  assert (Hw1 : (0 <=? getDayOfWeek dt) = true) by (apply Z.leb_le; lia).
  assert (Hw2 : (getDayOfWeek dt <=? 7) = true) by (apply Z.leb_le; lia).
  rewrite Hs1, Hmi1, Hh1, Hw1, Hw2, Hm1, Hm2, Hm3, (H31 _ Hd).
  rewrite H100 by (apply Z.mod_pos_bound; lia).
  repeat split; assumption.
Qed.

Lemma canonical_fields (data : DateTimeRegister.t) :
  canonical data = true ->
  is_bcd_between 0 59 (DateTimeRegister.seconds data) = true /\
  is_bcd_between 0 59 (DateTimeRegister.minutes data) = true /\
  is_bcd_between 0 23 (DateTimeRegister.hours data) = true /\
  0 <= DateTimeRegister.dayOfWeek data <= 7 /\
  is_bcd_between 1 31 (DateTimeRegister.day data) = true /\
  0 <= DateTimeRegister.month data < 256 /\
  is_bcd_between 1 12 (Z.land (DateTimeRegister.month data) 0x7f) = true /\
  is_bcd_between 0 99 (DateTimeRegister.year data) = true.
Proof.
  unfold canonical. rewrite !andb_true_iff.
  intros (((((((((Hs & Hmi) & Hh) & Hw1) & Hw2) & Hd) & Hm1) & Hm2) & Hm3) & Hy).
  repeat split; try assumption; lia.
Qed.

(** The year that [getDateTime] rebuilds from a valid year byte. *)
Lemma decoded_year (yb y : Z) (century : bool) :
  0 <= yb -> yb + 199 < 65536 -> 0 <= y <= 99 ->
  let year := u16 (u16 y + (if century then yb + 100 else yb)) in
  year = y + (if century then yb + 100 else yb) /\
  (yb + 100 <=? year) = century /\
  (yb mod 100 = 0 -> year mod 100 = y).
Proof.
  intros Hyb Hfit Hy year. subst year.
  rewrite (u16_small y) by lia.
  rewrite u16_small by (destruct century; lia).
  split; [reflexivity|]. split.
  - destruct century; [apply Z.leb_le | apply Z.leb_gt]; lia.
  - intros Hc. destruct century; Z.div_mod_to_equations; lia.
Qed.

Lemma canonical_decodes_in_range
    (yearBase : Z) (data : DateTimeRegister.t) :
  canonical data = true ->
  0 <= yearBase -> yearBase + 199 < 65536 ->
  DateTime_in_range (decodeDateTime yearBase data) /\
  yearBase <= getYear (decodeDateTime yearBase data) < yearBase + 200.
Proof.
  intros Hc Hyb Hfit.
  destruct (canonical_fields data Hc)
    as (Hs & Hmi & Hh & Hw & Hd & Hmb & Hmo & Hy).
  unfold DateTime_in_range, decodeDateTime, fromUncheckedValues.
  cbn [getYear getMonth getDay getHour getMinute getSecond getDayOfWeek].
  assert (Hu8 : forall x, u8 (BCD.convertBcdToBin x) = BCD.convertBcdToBin x)
    by (intros x; apply u8_small, convertBcdToBin_range).
  rewrite !Hu8, dayOfWeek_mask by exact Hw.
  destruct (bcd_reencode 59 0x7f ltac:(vm_compute; reflexivity) _ Hs)
    as [_ ->].
  destruct (bcd_reencode 59 0x7f ltac:(vm_compute; reflexivity) _ Hmi)
    as [_ ->].
  destruct (bcd_reencode 23 0x3f ltac:(vm_compute; reflexivity) _ Hh)
    as [_ ->].
  destruct (bcd_reencode 31 0x3f ltac:(vm_compute; reflexivity) _
              (is_bcd_between_weaken _ _ _ Hd)) as [_ ->].
  destruct (month_reencode _ Hmb Hmo) as [-> _].
  apply is_bcd_between_decode in Hs, Hmi, Hh, Hd, Hmo, Hy.
  destruct (decoded_year yearBase
              (BCD.convertBcdToBin (DateTimeRegister.year data))
              (negb (Z.land (DateTimeRegister.month data) (Z.shiftl 1 7) =? 0))
              Hyb Hfit Hy) as (Hyear & _ & _).
  cbv zeta in Hyear. rewrite Hyear.
  repeat split; try lia;
    destruct (negb (Z.land (DateTimeRegister.month data) (Z.shiftl 1 7) =? 0));
    lia.
Qed.

(** X8: when the seven time registers are canonical, [getDateTime] decodes
    them to a date/time whose fields are all in calendar range and whose
    year lies in the 200-year window that [setDateTime] accepts. *)
Theorem decodeDateTime_canonical_in_range
    (yearBase : Z) (data : DateTimeRegister.t) :
  canonical data = true ->
  0 <= yearBase -> yearBase + 199 < 65536 ->
  DateTime_in_range (decodeDateTime yearBase data) /\
  yearBase <= getYear (decodeDateTime yearBase data) < yearBase + 200.
Proof.
  intros Hc Hyb Hfit. now apply canonical_decodes_in_range.
Qed.

(** Encoding what was decoded from canonical registers gives the registers
    back, on a year base that starts a century. *)
Lemma encode_decode_canonical (yb : Z) (data : DateTimeRegister.t) :
  canonical data = true ->
  0 <= yb -> yb mod 100 = 0 -> yb + 199 < 65536 ->
  encodeDateTime yb (decodeDateTime yb data) = data.
Proof.
  intros Hc Hyb Hcent Hfit.
  destruct (canonical_fields data Hc)
    as (Hs & Hmi & Hh & Hw & Hd & Hmb & Hmo & Hy).
  destruct data as [s mi h w d mo y].
  cbn [DateTimeRegister.year DateTimeRegister.month DateTimeRegister.day
       DateTimeRegister.hours DateTimeRegister.minutes
       DateTimeRegister.seconds DateTimeRegister.dayOfWeek] in *.
  unfold encodeDateTime, decodeDateTime, fromUncheckedValues.
  cbn [DateTimeRegister.year DateTimeRegister.month DateTimeRegister.day
       DateTimeRegister.hours DateTimeRegister.minutes
       DateTimeRegister.seconds DateTimeRegister.dayOfWeek
       getYear getMonth getDay getHour getMinute getSecond getDayOfWeek].
  assert (Hu8 : forall x, u8 (BCD.convertBcdToBin x) = BCD.convertBcdToBin x)
    by (intros x; apply u8_small, convertBcdToBin_range).
  rewrite !Hu8, dayOfWeek_mask by exact Hw.
  destruct (bcd_reencode 59 0x7f ltac:(vm_compute; reflexivity) _ Hs)
    as [-> _].
  destruct (bcd_reencode 59 0x7f ltac:(vm_compute; reflexivity) _ Hmi)
    as [-> _].
  destruct (bcd_reencode 23 0x3f ltac:(vm_compute; reflexivity) _ Hh)
    as [-> _].
  destruct (bcd_reencode 31 0x3f ltac:(vm_compute; reflexivity) _
              (is_bcd_between_weaken _ _ _ Hd)) as [-> _].
  pose proof (is_bcd_between_decode _ _ _ Hy) as Hyr.
  destruct (decoded_year yb (BCD.convertBcdToBin y)
              (negb (Z.land mo (Z.shiftl 1 7) =? 0)) Hyb Hfit Hyr)
    as (_ & Hflag & Hmod).
  cbv zeta in Hflag, Hmod. rewrite Hflag, (Hmod Hcent).
  destruct (month_reencode _ Hmb Hmo) as [_ ->].
  destruct (bcd_reencode 99 0xff ltac:(vm_compute; reflexivity) _ Hy)
    as [Hre _].
  replace (Z.land y 0xff) with y in Hre.
  - now rewrite Hre.
  - apply is_bcd_between_byte in Hy. change 0xff with (Z.ones 8).
    rewrite Z.land_ones by lia. symmetry. now apply Z.mod_small.
Qed.

Lemma canonical_bytes (data : DateTimeRegister.t) :
  canonical data = true ->
  map u8 (DateTimeRegister.bytes data) = DateTimeRegister.bytes data.
Proof.
  intros Hc.
  destruct (canonical_fields data Hc)
    as (Hs & Hmi & Hh & Hw & Hd & Hmb & _ & Hy).
  apply is_bcd_between_byte in Hs, Hmi, Hh, Hd, Hy.
  unfold DateTimeRegister.bytes. cbn [map].
  now rewrite !u8_small by lia.
Qed.

(** Writing back what a range of registers holds changes nothing. *)
Lemma inserts_peek_id (regs : list Z) (a n : nat) :
  (a + n <= length regs)%nat ->
  list_inserts a (map (peek regs) (seq a n)) regs = regs.
Proof.
  intros Hlen. apply list_eq. intros i.
  destruct (decide (a <= i < a + n)%nat) as [Hin|Hout].
  - rewrite list_lookup_inserts by (rewrite ?length_map, ?length_seq; lia).
    rewrite list_lookup_fmap, lookup_seq_lt by lia.
    cbn [fmap option_fmap option_map]. unfold peek.
    replace (a + (i - a))%nat with i by lia.
    destruct (lookup_lt_is_Some_2 regs i ltac:(lia)) as [x Hx].
    now rewrite Hx.
  - destruct (decide (i < a)%nat).
    + now apply list_lookup_inserts_lt.
    + apply list_lookup_inserts_ge. rewrite length_map, length_seq. lia.
Qed.

(** X9: on a year base that starts a century, reading the date/time from
    canonical time registers with [getDateTime] and writing the value back
    with [setDateTime] leaves every register of the chip as it was. *)
Theorem getDateTime_setDateTime_restores
    (yearBase : Z) (dt0 dt : DateTime) (c c1 c2 : Chip) :
  canonical (DateTimeRegister.of_bytes
               (map (peek (registers c)) (seq 0 7))) = true ->
  0 <= yearBase -> yearBase mod 100 = 0 -> yearBase + 199 < 65536 ->
  (7 <= length (registers c))%nat ->
  getDateTime yearBase dt0 c = ((Success, dt), c1) ->
  setDateTime yearBase dt c1 = (Success, c2) ->
  registers c2 = registers c.
Proof.
  intros Hc Hyb Hcent Hfit Hlen Hget Hset.
  set (buffer := map (peek (registers c)) (seq 0 7)) in *.
  set (data := DateTimeRegister.of_bytes buffer) in *.
  unfold getDateTime, bind in Hget. rewrite readRegisterData_run in Hget.
  destruct (next_outcome c); cbn [isSuccessful ret] in Hget;
    [|discriminate Hget].
  change (map (peek (registers c))
            (seq (Register.address Register.Seconds) DateTimeRegister.sizeof))
    with buffer in Hget. fold data in Hget.
  unfold ret in Hget.
  assert (Hdt : dt = decodeDateTime yearBase data) by congruence.
  assert (Hc1 : c1 = after (ReadRegisterData Register.Seconds
                              DateTimeRegister.sizeof) c) by congruence.
  clear Hget. subst dt.
  destruct (canonical_decodes_in_range yearBase data Hc Hyb Hfit)
    as [_ Hwin].
  rewrite setDateTime_in_window in Hset by exact Hwin.
  rewrite encode_decode_canonical in Hset by assumption.
  destruct (writeRegisterData Register.Seconds (DateTimeRegister.bytes data) c1)
    as [st cw] eqn:Hw.
  assert (Hst : st = WireMaster.Success) by (destruct st; [easy | discriminate]).
  assert (Hcw : cw = c2) by congruence.
  apply writeRegisterData_effect in Hw as (_ & _ & Hregs).
  rewrite <- Hcw, (Hregs Hst), Hc1. cbn [after registers].
  rewrite canonical_bytes by exact Hc.
  replace (DateTimeRegister.bytes data) with buffer by reflexivity.
  apply (inserts_peek_id (registers c) 0 7). lia.
Qed.

Lemma getDateTime_setDateTime_restores_witness :
  let c := snd (setDateTime 2000 leap_2024 (chip_with 0x1c 0x88 [])) in
  registers
    (snd (setDateTime 2000
            (snd (fst (getDateTime 2000 eve_1999 c)))
            (snd (getDateTime 2000 eve_1999 c))))
  = registers c.
Proof.
  intros c.
  apply (getDateTime_setDateTime_restores 2000 eve_1999
           (snd (fst (getDateTime 2000 eve_1999 c))) c
           (snd (getDateTime 2000 eve_1999 c))).
  - vm_compute. reflexivity.
  - lia.
  - reflexivity.
  - lia.
  - vm_compute. lia.
  - vm_compute. reflexivity.
  - vm_compute. reflexivity.
Defined.

Lemma decodeDateTime_canonical_in_range_witness :
  DateTime_in_range
    (decodeDateTime 2000 (DateTimeRegister.mk 0x59 0x59 0x23 7 0x31 0x92 0x99))
  /\
  getYear
    (decodeDateTime 2000 (DateTimeRegister.mk 0x59 0x59 0x23 7 0x31 0x92 0x99))
  = 2199.
Proof.
  split.
  - apply (decodeDateTime_canonical_in_range 2000
             (DateTimeRegister.mk 0x59 0x59 0x23 7 0x31 0x92 0x99));
      [reflexivity | lia | lia].
  - reflexivity.
Defined.

Lemma encodeDateTime_canonical_witness :
  DateTime_in_range leap_2024 /\
  canonical (encodeDateTime 1970 leap_2024) = true.
Proof.
  assert (Hrange : DateTime_in_range leap_2024).
  { unfold DateTime_in_range, leap_2024. cbn. lia. }
  split; [exact Hrange|].
  exact (proj1 (encodeDateTime_canonical 1970 leap_2024 Hrange)).
Defined.

(** ** Oscillator control *)

Lemma clear_bit7 (x : Z) :
  Z.land (Z.land x (255 - u8 (oneBit8 7))) (oneBit8 7) = 0 /\
  Z.land (Z.land x (255 - u8 (oneBit8 7))) 0x7f = Z.land x 0x7f.
Proof.
  change (255 - u8 (oneBit8 7)) with 0x7f. change (oneBit8 7) with 0x80.
  rewrite <- !Z.land_assoc. change (Z.land 0x7f 0x80) with 0.
  change (Z.land 0x7f 0x7f) with 0x7f. now rewrite Z.land_0_r.
Qed.

(** An in-place update either takes effect or, out of range, does
    nothing. *)
Lemma insert_cases (regs : list Z) (i : nat) (v : Z) :
  (i < length regs)%nat /\ peek (<[i := v]> regs) i = v \/
  <[i := v]> regs = regs.
Proof.
  destruct (decide (i < length regs)%nat) as [Hlt|Hge].
  - left. split; [exact Hlt | now apply peek_insert_eq].
  - right. apply list_insert_ge. lia.
Qed.

(** The effect of clearing one bit of a register on what a mask [keep]
    sees, when the mask does not contain that bit. *)
Lemma clear_keeps (regs : list Z) (i : nat) (m keep : Z) :
  (forall x, Z.land (Z.land x m) keep = Z.land x keep) ->
  Z.land (peek (<[i := Z.land (peek regs i) m]> regs) i) keep
  = Z.land (peek regs i) keep.
Proof.
  intros Hm. destruct (insert_cases regs i (Z.land (peek regs i) m))
    as [[_ ->] | ->]; [apply Hm | reflexivity].
Qed.

Lemma enableOscillator_run (c : Chip) :
  let r1 := <[14%nat := Z.land (peek (registers c) 14) 0x7f]> (registers c) in
  let r2 := <[15%nat := Z.land (peek r1 15) 0x7f]> r1 in
  enableOscillator c = (Error, snd (enableOscillator c)) /\
    (registers (snd (enableOscillator c)) = registers c \/
     registers (snd (enableOscillator c)) = r1)
  \/
  enableOscillator c = (Success, snd (enableOscillator c)) /\
    registers (snd (enableOscillator c)) = r2.
Proof.
  intros r1 r2. unfold enableOscillator, bind.
  rewrite changeBits_run.
  destruct (next_outcome c); cbn [hasError isSuccessful negb];
    [|left; split; [reflexivity | left; reflexivity]].
  rewrite changeBits_run.
  match goal with |- context [next_outcome ?x] =>
    destruct (next_outcome x) end; cbn [isSuccessful].
  - right. split; reflexivity.
  - left. split; [reflexivity | right; reflexivity].
Qed.

(** X10: after [enableOscillator] has returned Success on a chip with its
    19 registers, an [isRunning] call that returns Success reports that the
    oscillator is running, whatever the control and status registers held
    before. *)
Theorem enableOscillator_then_isRunning
    (c c1 c2 : Chip) (running0 running : bool) :
  length (registers c) = 19%nat ->
  enableOscillator c = (Success, c1) ->
  isRunning running0 c1 = ((Success, running), c2) ->
  running = true.
Proof.
  intros Hlen Hen Hrun.
  destruct (enableOscillator_run c) as [[Herr _] | [_ Hregs]];
    [rewrite Hen in Herr; discriminate|].
  rewrite Hen in Hregs. cbn [snd] in Hregs.
  assert (H15 : Z.land (peek (registers c1) 15) StatusFlag.OSF = 0).
  { rewrite Hregs, peek_insert_eq by (rewrite length_insert; lia).
    apply clear_bit7. }
  assert (H14 : Z.land (peek (registers c1) 14) ControlFlag.EOSC = 0).
  { rewrite Hregs, peek_insert_ne, peek_insert_eq by lia.
    apply clear_bit7. }
  unfold isRunning, bind in Hrun. rewrite testBits_run in Hrun.
  change (Register.address Register.Status) with 15%nat in Hrun.
  rewrite H15 in Hrun.
  destruct (next_outcome c1); cbn in Hrun; [|discriminate Hrun].
  rewrite testBits_run in Hrun.
  change (Register.address Register.Control) with 14%nat in Hrun.
  cbn [after registers] in Hrun. rewrite H14 in Hrun.
  match type of Hrun with context [next_outcome ?x] =>
    destruct (next_outcome x) end; cbn in Hrun; unfold ret in Hrun;
    congruence.
Qed.

Lemma enableOscillator_then_isRunning_witness :
  let stopped := chip_with 0xff 0xff [] in
  snd (fst (isRunning false (snd (enableOscillator stopped)))) = true.
Proof.
  intros stopped.
  apply (enableOscillator_then_isRunning stopped
           (snd (enableOscillator stopped))
           (snd (isRunning false (snd (enableOscillator stopped))))
           false).
  - reflexivity.
  - vm_compute. reflexivity.
  - vm_compute. reflexivity.
Defined.

(** X11: whatever the transport reports, [enableOscillator] changes nothing
    but bit 7 of the control register and bit 7 of the status register:
    every other register keeps its content, and so do the low seven bits of
    these two (alarm enables, pin mode, alarm flags). *)
Theorem enableOscillator_touches_bit7_only (c : Chip) :
  let c1 := snd (enableOscillator c) in
  (forall j : nat, j <> 14%nat -> j <> 15%nat ->
     registers c1 !! j = registers c !! j) /\
  Z.land (peek (registers c1) 14) 0x7f = Z.land (peek (registers c) 14) 0x7f /\
  Z.land (peek (registers c1) 15) 0x7f = Z.land (peek (registers c) 15) 0x7f.
Proof.
  intros c1. subst c1.
  pose proof (fun x => proj2 (clear_bit7 x)) as Hkeep.
  change (255 - u8 (oneBit8 7)) with 0x7f in Hkeep.
  set (r1 := <[14%nat := Z.land (peek (registers c) 14) 0x7f]> (registers c)).
  assert (H1 : (forall j : nat, j <> 14%nat -> r1 !! j = registers c !! j) /\
               Z.land (peek r1 14) 0x7f = Z.land (peek (registers c) 14) 0x7f).
  { split; [intros j Hj; now apply list_lookup_insert_ne|].
    now apply clear_keeps. }
  destruct H1 as [H1f H1b].
  destruct (enableOscillator_run c) as [[_ [-> | ->]] | [_ ->]]; fold r1.
  - auto.
  - repeat split; [intros j Hj _; now apply H1f | exact H1b|].
    unfold peek. now rewrite H1f by lia.
  - repeat split.
    + intros j H14 H15. rewrite list_lookup_insert_ne by lia. now apply H1f.
    + rewrite peek_insert_ne by lia. exact H1b.
    + rewrite clear_keeps by exact Hkeep.
      unfold peek. now rewrite H1f by lia.
Qed.

(** ** Alarm flags: read and consume *)

Lemma transport_ok_2 (t : Transaction) (c : Chip) :
  transport_ok 2 c = true ->
  next_outcome c = WireMaster.Success /\
  next_outcome (after t c) = WireMaster.Success.
Proof.
  unfold transport_ok, next_outcome, after. cbn [outcomes].
  destruct (outcomes c) as [|s1 [|s2 rest]]; cbn;
    try destruct s1; try destruct s2; cbn; auto; discriminate.
Qed.

Lemma clear_flag_bit (x flag : Z) :
  flag = 0x01 \/ flag = 0x02 ->
  Z.land (Z.land x (255 - u8 flag)) flag = 0 /\
  Z.land (Z.land x (255 - u8 flag)) (255 - flag) = Z.land x (255 - flag).
Proof.
  intros [-> | ->]; rewrite <- !Z.land_assoc; cbn; now rewrite Z.land_0_r.
Qed.

(** What an alarm query does to the chip, by the outcome of its test. *)
Lemma isAlarm1Set_run (isSet0 : bool) (c : Chip) :
  let tested := after (TestBits Register.Status StatusFlag.A1F) c in
  isAlarm1Set isSet0 c =
    if isSuccessful (next_outcome c)
    then if Z.land (peek (registers c) 15) 0x01 =? 0
         then ((Success, false), tested)
         else ((Success, true),
               snd (changeBits Register.Status StatusFlag.A1F
                      WireMaster.Clear tested))
    else ((Error, isSet0), tested).
Proof.
  intros tested. unfold isAlarm1Set, bind. rewrite testBits_run.
  fold tested. change (Register.address Register.Status) with 15%nat.
  change StatusFlag.A1F with 0x01.
  destruct (next_outcome c); cbn [hasError isSuccessful negb];
    [|reflexivity].
  destruct (Z.land (peek (registers c) 15) 1 =? 0);
    cbn [WireMaster.BitResult_eqb]; [reflexivity|].
  now destruct (changeBits _ _ _ _).
Qed.

Lemma isAlarm2Set_run (isSet0 : bool) (c : Chip) :
  let tested := after (TestBits Register.Status StatusFlag.A2F) c in
  isAlarm2Set isSet0 c =
    if isSuccessful (next_outcome c)
    then if Z.land (peek (registers c) 15) 0x02 =? 0
         then ((Success, false), tested)
         else ((Success, true),
               snd (changeBits Register.Status StatusFlag.A2F
                      WireMaster.Clear tested))
    else ((Error, isSet0), tested).
Proof.
  intros tested. unfold isAlarm2Set, bind. rewrite testBits_run.
  fold tested. change (Register.address Register.Status) with 15%nat.
  change StatusFlag.A2F with 0x02.
  destruct (next_outcome c); cbn [hasError isSuccessful negb];
    [|reflexivity].
  destruct (Z.land (peek (registers c) 15) 2 =? 0);
    cbn [WireMaster.BitResult_eqb]; [reflexivity|].
  now destruct (changeBits _ _ _ _).
Qed.

(** The shared argument: once the clearing write has gone through, the
    flag reads zero. *)
Lemma alarm_consumed (flag : Z) (t : Transaction) (c c1 : Chip) :
  flag = 0x01 \/ flag = 0x02 ->
  length (registers c) = 19%nat ->
  c1 = snd (changeBits Register.Status flag WireMaster.Clear (after t c)) ->
  (Z.land (peek (registers c) 15) flag =? 0) = false ->
  transport_ok 2 c = true ->
  (Z.land (peek (registers c1) 15) flag =? 0) = true.
Proof.
  intros Hflag Hlen -> Hset Hok.
  rewrite changeBits_run.
  destruct (transport_ok_2 t c Hok) as [_ H2].
  rewrite H2. cbn [isSuccessful snd registers].
  change (Register.address Register.Status) with 15%nat.
  rewrite peek_insert_eq by (cbn; lia).
  apply Z.eqb_eq. now apply clear_flag_bit.
Qed.

(** X12: when [isAlarm1Set] (or [isAlarm2Set]) has reported its flag set
    and the transport carried both its test and its clearing write, an
    immediately following call that returns Success reports false: the
    flag is consumed. *)
Theorem isAlarmSet_consumes_flag
    (c c1 c2 : Chip) (isSet0 isSet1 again : bool) :
  length (registers c) = 19%nat ->
  transport_ok 2 c = true ->
  (isAlarm1Set isSet0 c = ((Success, true), c1) ->
   isAlarm1Set isSet1 c1 = ((Success, again), c2) ->
   again = false) /\
  (isAlarm2Set isSet0 c = ((Success, true), c1) ->
   isAlarm2Set isSet1 c1 = ((Success, again), c2) ->
   again = false).
Proof.
  intros Hlen Hok. split; intros H1 H2.
  - rewrite isAlarm1Set_run in H1, H2. cbv zeta in H1, H2.
    destruct (isSuccessful (next_outcome c)); [|discriminate H1].
    destruct (Z.land (peek (registers c) 15) 1 =? 0) eqn:Hset;
      [discriminate H1|].
    assert (Hc1 : c1 = snd (changeBits Register.Status StatusFlag.A1F
                WireMaster.Clear
                (after (TestBits Register.Status StatusFlag.A1F) c)))
      by congruence.
    pose proof (alarm_consumed 0x01 (TestBits Register.Status StatusFlag.A1F)
                  c c1 (or_introl eq_refl) Hlen Hc1 Hset Hok) as Hclear.
    destruct (isSuccessful (next_outcome c1)); [|discriminate H2].
    rewrite Hclear in H2. congruence.
  - rewrite isAlarm2Set_run in H1, H2. cbv zeta in H1, H2.
    destruct (isSuccessful (next_outcome c)); [|discriminate H1].
    destruct (Z.land (peek (registers c) 15) 2 =? 0) eqn:Hset;
      [discriminate H1|].
    assert (Hc1 : c1 = snd (changeBits Register.Status StatusFlag.A2F
                WireMaster.Clear
                (after (TestBits Register.Status StatusFlag.A2F) c)))
      by congruence.
    pose proof (alarm_consumed 0x02 (TestBits Register.Status StatusFlag.A2F)
                  c c1 (or_intror eq_refl) Hlen Hc1 Hset Hok) as Hclear.
    destruct (isSuccessful (next_outcome c1)); [|discriminate H2].
    rewrite Hclear in H2. congruence.
Qed.

Lemma isAlarmSet_consumes_flag_witness :
  let fired := chip_with 0x00 0x03 [] in
  snd (fst (isAlarm1Set false (snd (isAlarm1Set false fired)))) = false /\
  snd (fst (isAlarm2Set false (snd (isAlarm2Set false fired)))) = false.
Proof.
  intros fired. split.
  - apply (proj1 (isAlarmSet_consumes_flag fired
             (snd (isAlarm1Set false fired))
             (snd (isAlarm1Set false (snd (isAlarm1Set false fired))))
             false false
             (snd (fst (isAlarm1Set false (snd (isAlarm1Set false fired)))))
             eq_refl eq_refl));
      vm_compute; reflexivity.
  - apply (proj2 (isAlarmSet_consumes_flag fired
             (snd (isAlarm2Set false fired))
             (snd (isAlarm2Set false (snd (isAlarm2Set false fired))))
             false false
             (snd (fst (isAlarm2Set false (snd (isAlarm2Set false fired)))))
             eq_refl eq_refl));
      vm_compute; reflexivity.
Defined.

(** X13: whatever the transport reports, [isAlarm1Set] changes at most bit
    0 of the status register and [isAlarm2Set] at most bit 1: every other
    register and every other bit of the status register, the other alarm's
    flag and the oscillator-stop flag among them, stay as they were. *)
Theorem isAlarmSet_touches_own_flag_only (isSet0 : bool) (c : Chip) :
  let c1 := snd (isAlarm1Set isSet0 c) in
  let c2 := snd (isAlarm2Set isSet0 c) in
  (forall j : nat, j <> 15%nat -> registers c1 !! j = registers c !! j) /\
  Z.land (peek (registers c1) 15) 0xfe = Z.land (peek (registers c) 15) 0xfe /\
  (forall j : nat, j <> 15%nat -> registers c2 !! j = registers c !! j) /\
  Z.land (peek (registers c2) 15) 0xfd = Z.land (peek (registers c) 15) 0xfd.
Proof.
  intros c1 c2. subst c1 c2.
  rewrite isAlarm1Set_run, isAlarm2Set_run. cbv zeta.
  rewrite !changeBits_run.
  change (Register.address Register.Status) with 15%nat.
  change (255 - u8 StatusFlag.A1F) with 0xfe.
  change (255 - u8 StatusFlag.A2F) with 0xfd.
  assert (Hfe : forall x, Z.land (Z.land x 0xfe) 0xfe = Z.land x 0xfe)
    by (intros x; exact (proj2 (clear_flag_bit x 0x01 (or_introl eq_refl)))).
  assert (Hfd : forall x, Z.land (Z.land x 0xfd) 0xfd = Z.land x 0xfd)
    by (intros x; exact (proj2 (clear_flag_bit x 0x02 (or_intror eq_refl)))).
  split; [|split; [|split]].
  - intros j Hj. destruct (isSuccessful (next_outcome c)); [|reflexivity].
    destruct (Z.land _ 1 =? 0); [reflexivity|].
    destruct (isSuccessful (next_outcome _)); [|reflexivity].
    cbn [snd registers after]. now apply list_lookup_insert_ne.
  - destruct (isSuccessful (next_outcome c)); [|reflexivity].
    destruct (Z.land _ 1 =? 0); [reflexivity|].
    destruct (isSuccessful (next_outcome _)); [|reflexivity].
    cbn [snd registers after]. now apply clear_keeps.
  - intros j Hj. destruct (isSuccessful (next_outcome c)); [|reflexivity].
    destruct (Z.land _ 2 =? 0); [reflexivity|].
    destruct (isSuccessful (next_outcome _)); [|reflexivity].
    cbn [snd registers after]. now apply list_lookup_insert_ne.
  - destruct (isSuccessful (next_outcome c)); [|reflexivity].
    destruct (Z.land _ 2 =? 0); [reflexivity|].
    destruct (isSuccessful (next_outcome _)); [|reflexivity].
    cbn [snd registers after]. now apply clear_keeps.
Qed.

(** ** Interrupt pin mode *)

Lemma IntPinMode_value_field (mode : IntPinMode) :
  Z.land (u8 (IntPinMode_value mode)) (u8 0x1f) = IntPinMode_value mode.
Proof. destruct mode; reflexivity. Qed.

Lemma field_write_bits (x v : Z) (k : Z) :
  (5 <= k <= 7 ->
     Z.testbit (Z.lor (Z.land x (255 - u8 0x1f)) v) k
     = Z.testbit x k || Z.testbit v k) /\
  (0 <= k < 5 ->
     Z.testbit (Z.lor (Z.land x (255 - u8 0x1f)) v) k = Z.testbit v k).
Proof.
  rewrite Z.lor_spec, Z.land_spec. change (255 - u8 0x1f) with 0xe0.
  split; intros Hk.
  - assert (Hbit : Z.testbit 0xe0 k = true).
    { assert (k = 5 \/ k = 6 \/ k = 7) as [-> | [-> | ->]] by lia;
        reflexivity. }
    now rewrite Hbit, andb_true_r.
  - assert (Hbit : Z.testbit 0xe0 k = false).
    { assert (k = 0 \/ k = 1 \/ k = 2 \/ k = 3 \/ k = 4)
        as [-> | [-> | [-> | [-> | ->]]]] by lia; reflexivity. }
    now rewrite Hbit, andb_false_r.
Qed.

Lemma IntPinMode_value_high_bits (mode : IntPinMode) (k : Z) :
  5 <= k <= 7 -> Z.testbit (IntPinMode_value mode) k = false.
Proof.
  intros Hk. assert (k = 5 \/ k = 6 \/ k = 7) as [-> | [-> | ->]] by lia;
    destruct mode; reflexivity.
Qed.

(** X14: [setIntPinMode] leaves every register other than the control
    register alone and never changes bits 5 to 7 of the control register
    (CONV, BBSQW and the oscillator-enable bit EOSC); when it returns
    Success on a chip with its 19 registers, bits 0 to 4 of the control
    register are the bits of the mode value. *)
Theorem setIntPinMode_field (mode : IntPinMode) (c : Chip) :
  let c1 := snd (setIntPinMode mode c) in
  (forall j : nat, j <> 14%nat -> registers c1 !! j = registers c !! j) /\
  (forall k, 5 <= k <= 7 ->
     Z.testbit (peek (registers c1) 14) k
     = Z.testbit (peek (registers c) 14) k) /\
  (fst (setIntPinMode mode c) = Success ->
   length (registers c) = 19%nat ->
   forall k, 0 <= k < 5 ->
     Z.testbit (peek (registers c1) 14) k
     = Z.testbit (IntPinMode_value mode) k).
Proof.
  intros c1. subst c1. unfold setIntPinMode, bind.
  rewrite writeBits_run. change (Register.address Register.Control) with 14%nat.
  rewrite IntPinMode_value_field.
  destruct (next_outcome c); cbn [isSuccessful snd fst ret registers after].
  - split; [intros j Hj; now apply list_lookup_insert_ne|]. split.
    + intros k Hk.
      destruct (insert_cases (registers c) 14
                  (Z.lor (Z.land (peek (registers c) 14) (255 - u8 0x1f))
                         (IntPinMode_value mode))) as [[_ ->] | ->];
        [|reflexivity].
      rewrite (proj1 (field_write_bits _ _ k) Hk).
      now rewrite IntPinMode_value_high_bits, orb_false_r.
    + intros _ Hlen k Hk. rewrite peek_insert_eq by lia.
      exact (proj2 (field_write_bits _ _ k) Hk).
  - split; [reflexivity|]. split; [reflexivity|]. discriminate.
Qed.

Lemma setIntPinMode_field_witness :
  let c := chip_with 0xff 0x00 [] in
  peek (registers (snd (setIntPinMode SquareWave1024Hz c))) 14 = 0xe8.
Proof.
  intros c. apply Z.bits_inj'. intros k Hk.
  destruct (Z_lt_le_dec k 5) as [Hlo|Hhi].
  - rewrite (proj2 (proj2 (setIntPinMode_field SquareWave1024Hz c))
               eq_refl eq_refl k (conj Hk Hlo)).
    assert (k = 0 \/ k = 1 \/ k = 2 \/ k = 3 \/ k = 4)
      as [-> | [-> | [-> | [-> | ->]]]] by lia; reflexivity.
  - destruct (Z_le_gt_dec k 7) as [Hle|Hgt].
    + rewrite (proj1 (proj2 (setIntPinMode_field SquareWave1024Hz c))
                 k (conj Hhi Hle)).
      assert (k = 5 \/ k = 6 \/ k = 7) as [-> | [-> | ->]] by lia;
        reflexivity.
    + vm_compute (peek _ _). rewrite !Z.bits_above_log2; try reflexivity;
        cbn; lia.
Defined.

(** ** What [setDateTime] leaves alone *)

(** X15: [setDateTime] never changes a register from address 0x07 on
    (alarms, control, status, aging offset, temperature), whatever the
    year and whatever the transport reports; a call that returns Success on
    a chip with its 19 registers leaves the seven prepared bytes in
    registers 0x00 to 0x06. *)
Theorem setDateTime_frame (yearBase : Z) (dt : DateTime) (c : Chip) :
  let c1 := snd (setDateTime yearBase dt c) in
  (forall j : nat, (7 <= j)%nat -> registers c1 !! j = registers c !! j) /\
  (fst (setDateTime yearBase dt c) = Success ->
   length (registers c) = 19%nat ->
   map (peek (registers c1)) (seq 0 7)
   = map u8 (DateTimeRegister.bytes (encodeDateTime yearBase dt))).
Proof.
  intros c1. subst c1. unfold setDateTime.
  destruct ((getYear dt <? yearBase) || (yearBase + 200 <=? getYear dt)).
  - cbn. split; [reflexivity | discriminate].
  - unfold bind.
    destruct (writeRegisterData Register.Seconds
                (DateTimeRegister.bytes (encodeDateTime yearBase dt)) c)
      as [st cw] eqn:Hw.
    cbn [ret fst snd].
    apply writeRegisterData_effect in Hw as (_ & Hframe & Hregs).
    split; [intros j Hj; apply Hframe; cbn; lia|].
    destruct st; cbn [statusFromBus isSuccessful]; [|discriminate].
    intros _ Hlen. rewrite (Hregs eq_refl).
    apply (peek_inserts 0
             (map u8 (DateTimeRegister.bytes (encodeDateTime yearBase dt)))).
    cbn. lia.
Qed.

(** ** What the alarm image says to the chip *)

Lemma alarm_day_field (flag : bool) :
  forall n, 0 <= n < 32 ->
    let b := u8 (Z.lor (BCD.convertBinToBcd n) (if flag then 0x80 else 0x00)) in
    Z.testbit b 6 = false /\ BCD.convertBcdToBin (Z.land b 0x3f) = n.
Proof.
  intros n Hn b. subst b.
  pose proof (forall_below_spec 32
    (fun x =>
       let b := u8 (Z.lor (BCD.convertBinToBcd x)
                          (if flag then 0x80 else 0x00)) in
       negb (Z.testbit b 6) && (BCD.convertBcdToBin (Z.land b 0x3f) =? x))
    ltac:(destruct flag; vm_compute; reflexivity) n ltac:(lia)) as H.
  cbv zeta beta in H. apply andb_true_iff in H as [H1 H2].
  split; [now apply negb_true_iff | now apply Z.eqb_eq].
Qed.

Lemma alarm_weekday_field (flag : bool) :
  forall w, 0 <= w < 8 ->
    let b := u8 (Z.lor (u8 (Z.lor (BCD.convertBinToBcd (w + 1)) 0x40))
                       (if flag then 0x80 else 0x00)) in
    Z.testbit b 6 = true /\ BCD.convertBcdToBin (Z.land b 0x3f) = w + 1.
Proof.
  intros w Hw b. subst b.
  pose proof (forall_below_spec 8
    (fun x =>
       let b := u8 (Z.lor (u8 (Z.lor (BCD.convertBinToBcd (x + 1)) 0x40))
                          (if flag then 0x80 else 0x00)) in
       Z.testbit b 6 && (BCD.convertBcdToBin (Z.land b 0x3f) =? x + 1))
    ltac:(destruct flag; vm_compute; reflexivity) w ltac:(lia)) as H.
  cbv zeta beta in H. apply andb_true_iff in H as [H1 H2].
  split; [exact H1 | now apply Z.eqb_eq].
Qed.

(** X16: for a date/time with fields in range, the alarm image of
    [fillAlarmRegister] reads back as the chip reads it: the BCD digits
    below the don't-care bit decode to the second, minute and hour; bit 6
    of the day byte (day-of-week marker) is set exactly for the mode
    DayHoursMinutesSeconds, and the digits below it decode to
    dayOfWeek + 1 in that mode and to the day of the month in every
    other. *)
Theorem fillAlarmRegister_reads_back (alarmMode : AlarmMode) (dt : DateTime) :
  DateTime_in_range dt ->
  let data := fillAlarmRegister alarmMode dt in
  BCD.convertBcdToBin (Z.land (AlarmRegister.seconds data) 0x7f)
    = getSecond dt /\
  BCD.convertBcdToBin (Z.land (AlarmRegister.minutes data) 0x7f)
    = getMinute dt /\
  BCD.convertBcdToBin (Z.land (AlarmRegister.hours data) 0x7f)
    = getHour dt /\
  (Z.testbit (AlarmRegister.day data) 6 = true
     <-> alarmMode = DayHoursMinutesSeconds) /\
  BCD.convertBcdToBin (Z.land (AlarmRegister.day data) 0x3f)
    = match alarmMode with
      | DayHoursMinutesSeconds => getDayOfWeek dt + 1
      | _ => getDay dt
      end.
Proof.
  intros (Hmo & Hd & Hh & Hmi & Hs & Hw) data. subst data.
  unfold fillAlarmRegister.
  cbn [AlarmRegister.seconds AlarmRegister.minutes AlarmRegister.hours
       AlarmRegister.day].
  destruct (alarm_field (negb (Z.land (AlarmMode_value alarmMode) 1 =? 0))
              (getSecond dt)) as [_ ->]; [lia|].
  destruct (alarm_field (negb (Z.land (AlarmMode_value alarmMode) 2 =? 0))
              (getMinute dt)) as [_ ->]; [lia|].
  destruct (alarm_field (negb (Z.land (AlarmMode_value alarmMode) 4 =? 0))
              (getHour dt)) as [_ ->]; [lia|].
  rewrite !bcd_roundtrip by lia.
  split; [reflexivity|]. split; [reflexivity|]. split; [reflexivity|].
  destruct (alarm_day_field
              (negb (Z.land (AlarmMode_value alarmMode) 8 =? 0))
              (getDay dt)) as [Hd6 Hdv]; [lia|].
  destruct (alarm_weekday_field
              (negb (Z.land (AlarmMode_value alarmMode) 8 =? 0))
              (getDayOfWeek dt)) as [Hw6 Hwv]; [lia|].
  pose proof (alarm_mode_is_day alarmMode) as Hday.
  destruct (AlarmMode_value alarmMode =? AlarmMode_value DayHoursMinutesSeconds)
    eqn:Hcmp.
  - assert (HisDay : alarmMode = DayHoursMinutesSeconds) by now apply Hday.
    rewrite Hw6, Hwv. subst alarmMode. split; [tauto | reflexivity].
  - rewrite Hd6, Hdv. split.
    + split; [discriminate|]. intros Heq. apply Hday in Heq. discriminate.
    + destruct alarmMode; try reflexivity.
      exfalso. assert (false = true) by now apply Hday. discriminate.
Qed.

Lemma fillAlarmRegister_reads_back_witness :
  BCD.convertBcdToBin
    (Z.land (AlarmRegister.hours (fillAlarmRegister OncePerSecond leap_2024))
            0x7f) = 13 /\
  BCD.convertBcdToBin
    (Z.land (AlarmRegister.day
               (fillAlarmRegister DayHoursMinutesSeconds leap_2024)) 0x3f)
    = 4.
Proof.
  assert (Hrange : DateTime_in_range leap_2024).
  { unfold DateTime_in_range, leap_2024. cbn. lia. }
  split.
  - exact (proj1 (proj2 (proj2
      (fillAlarmRegister_reads_back OncePerSecond leap_2024 Hrange)))).
  - exact (proj2 (proj2 (proj2 (proj2
      (fillAlarmRegister_reads_back DayHoursMinutesSeconds leap_2024
         Hrange))))).
Defined.

(** X17: the alarm calls use only part of the date/time.  [setAlarm2]
    ignores the second, and both calls ignore year and month, the day of
    the month in the mode DayHoursMinutesSeconds and the day of the week in
    every other mode: two date/times that agree on the fields in use give
    the same bus write, status and chip. *)
Theorem setAlarm_fields_in_use (alarmMode : AlarmMode) (dt dt' : DateTime)
    (c : Chip) :
  getMinute dt = getMinute dt' -> getHour dt = getHour dt' ->
  match alarmMode with
  | DayHoursMinutesSeconds => getDayOfWeek dt = getDayOfWeek dt'
  | _ => getDay dt = getDay dt'
  end ->
  setAlarm2 alarmMode dt c = setAlarm2 alarmMode dt' c /\
  (getSecond dt = getSecond dt' ->
     setAlarm1 alarmMode dt c = setAlarm1 alarmMode dt' c).
Proof.
  intros Hmi Hh Hday.
  assert (Hd : AlarmRegister.day (fillAlarmRegister alarmMode dt)
               = AlarmRegister.day (fillAlarmRegister alarmMode dt')).
  { unfold fillAlarmRegister. cbn [AlarmRegister.day].
    destruct alarmMode; cbn [AlarmMode_value Z.eqb Pos.eqb];
      now rewrite Hday. }
  assert (Hm : AlarmRegister.minutes (fillAlarmRegister alarmMode dt)
               = AlarmRegister.minutes (fillAlarmRegister alarmMode dt'))
    by (unfold fillAlarmRegister; cbn [AlarmRegister.minutes];
        now rewrite Hmi).
  assert (Hhr : AlarmRegister.hours (fillAlarmRegister alarmMode dt)
                = AlarmRegister.hours (fillAlarmRegister alarmMode dt'))
    by (unfold fillAlarmRegister; cbn [AlarmRegister.hours];
        now rewrite Hh).
  split.
  - unfold setAlarm2, AlarmRegister.bytes.
    cbn [firstn skipn AlarmRegister.sizeof Nat.sub].
    now rewrite Hd, Hm, Hhr.
  - intros Hs.
    assert (Hsec : AlarmRegister.seconds (fillAlarmRegister alarmMode dt)
                   = AlarmRegister.seconds (fillAlarmRegister alarmMode dt'))
      by (unfold fillAlarmRegister; cbn [AlarmRegister.seconds];
          now rewrite Hs).
    unfold setAlarm1, AlarmRegister.bytes.
    cbn [firstn AlarmRegister.sizeof].
    now rewrite Hd, Hm, Hhr, Hsec.
Qed.

Lemma setAlarm_fields_in_use_witness :
  setAlarm2 OncePerMinute (mkDateTime 2024 2 29 13 37 42 3) blank_chip
  = setAlarm2 OncePerMinute (mkDateTime 1999 12 29 13 37 0 5) blank_chip.
Proof.
  apply (proj1 (setAlarm_fields_in_use OncePerMinute
                  (mkDateTime 2024 2 29 13 37 42 3)
                  (mkDateTime 1999 12 29 13 37 0 5) blank_chip
                  eq_refl eq_refl eq_refl)).
Defined.

(** ** Range of the temperature *)

(** X18: whatever the two temperature registers hold, the float that
    [getTemperature] computes is finite, a whole number of quarter degrees
    between -128.75 and 127.75, and never lies strictly between -1 and 0:
    with the integer part 0 the fraction is always added. *)
Theorem decodeTemperature_range (buffer : list Z) :
  exists q,
    Float32.to_Q (decodeTemperature (TemperatureRegister.of_bytes buffer))
      = Some q /\
    (exists k : Z, -515 <= k <= 511 /\ (q == k # 4)%Q /\
                   (0 <= k \/ k <= -4)).
Proof.
  pose proof (int8_range (nth 0 buffer 0)) as Hh.
  assert (Hl : 0 <= u8 (nth 1 buffer 0) < 256)
    by (unfold u8; apply Z.mod_pos_bound; lia).
  destruct (decodeTemperature_exact _ _ Hh Hl) as (q & Hq & Hval).
  exists q. split; [exact Hq|].
  assert (Hf : 0 <= Z.shiftr (u8 (nth 1 buffer 0)) 6 < 4).
  { rewrite Z.shiftr_div_pow2 by lia. change (2 ^ 6) with 64.
    split; [apply Z.div_pos; lia | apply Z.div_lt_upper_bound; lia]. }
  unfold temperature_value in Hval.
  destruct (Z.ltb_spec (int8 (nth 0 buffer 0)) 0) as [Hneg|Hpos].
  - exists (4 * int8 (nth 0 buffer 0) - Z.shiftr (u8 (nth 1 buffer 0)) 6).
    split; [lia|]. split; [|lia]. rewrite Hval.
    unfold Qeq, Qminus, Qplus, Qopp, Qmult, inject_Z. cbn [Qnum Qden]. lia.
  - exists (4 * int8 (nth 0 buffer 0) + Z.shiftr (u8 (nth 1 buffer 0)) 6).
    split; [lia|]. split; [|lia]. rewrite Hval.
    unfold Qeq, Qplus, Qmult, inject_Z. cbn [Qnum Qden]. lia.
Qed.

(** ** The running state in terms of the registers *)

(** X19: when the transport carries the two bit tests, [isRunning] returns
    Success and reports running exactly when bit 7 of the status register
    (oscillator stopped) and bit 7 of the control register (oscillator
    disabled) are both clear. *)
Theorem isRunning_reads_both_flags (running0 : bool) (c : Chip) :
  transport_ok 2 c = true ->
  fst (isRunning running0 c)
  = (Success,
     (Z.land (peek (registers c) 15) 0x80 =? 0)
     && (Z.land (peek (registers c) 14) 0x80 =? 0)).
Proof.
  intros Hok.
  destruct (transport_ok_2 (TestBits Register.Status StatusFlag.OSF) c Hok)
    as [H1 H2].
  unfold isRunning, bind. rewrite testBits_run, H1.
  cbn [isSuccessful hasError negb].
  change (Register.address Register.Status) with 15%nat.
  change StatusFlag.OSF with 0x80.
  destruct (Z.land (peek (registers c) 15) 0x80 =? 0);
    cbn [WireMaster.BitResult_eqb andb]; [|reflexivity].
  rewrite testBits_run. change StatusFlag.OSF with 0x80 in H2. rewrite H2.
  cbn [isSuccessful hasError negb after registers].
  change (Register.address Register.Control) with 14%nat.
  change ControlFlag.EOSC with 0x80.
  now destruct (Z.land (peek (registers c) 14) 0x80 =? 0).
Qed.

Lemma isRunning_reads_both_flags_witness :
  fst (isRunning true (chip_with 0x80 0x00 [])) = (Success, false) /\
  fst (isRunning false (chip_with 0x7f 0x7f [])) = (Success, true).
Proof.
  split.
  - exact (isRunning_reads_both_flags true (chip_with 0x80 0x00 []) eq_refl).
  - exact (isRunning_reads_both_flags false (chip_with 0x7f 0x7f []) eq_refl).
Defined.

Lemma error_keeps_output_variable_witness :
  let dead := chip_with 0x00 0x01 [WireMaster.Error] in
  getDateTime 2000 eve_1999 dead
    = ((Error, eve_1999), after (ReadRegisterData Register.Seconds 7) dead) /\
  snd (fst (isAlarm1Set false dead)) = false.
Proof.
  intros dead.
  pose proof (error_keeps_output_variable 2000 eve_1999 false
                (S754_zero false) unit tt (fun s _ => s) (fun s _ => s)
                (fun s _ => s) tt dead) as (Hdt & _ & Ha1 & _).
  split.
  - rewrite <- (Hdt eq_refl) at 1. reflexivity.
  - exact (Ha1 eq_refl).
Defined.
